(** * The structured ReAct engine of [react_agent_app.py]

    A shallow embedding of [run_structured_react_engine], the [Action]
    schema and the tool list of [get_tools], followed by the properties of
    the decision loop: termination within the iteration budget, the
    terminal branches, the recoverable tool errors and the growth of the
    recorded steps.

    Python objects are modelled as follows.
    - A value of an [Any] field is a [value]; [str] objects are [VStr].
    - An exception is an instance of [Exception]; it is identified with
      the text [str(e)] it carries.
    - The completion capability, the prompt template and the tools are the
      arguments the source function receives.  Calls that reach the outside
      world (the completion request, a tool invocation) transform an
      abstract [World]; the engine additionally keeps a log of the calls it
      issued, which plays the role of the call counters of a mock.
    - Writes to the Streamlit sidebar are display only; they are logged as
      [Sidebar] events and never fail. *)

From Stdlib Require Import String Ascii List ZArith Lia.
From stdpp Require Import gmap strings list fin_maps.

Open Scope string_scope.

(** ** Values, exceptions and the decision schema *)

#[local] Set Warnings "-register-all".

Inductive value : Type :=
| VNone
| VBool (b : bool)
| VInt (z : Z)
| VStr (s : string)
| VList (l : list value)
| VDict (d : list (string * value)).

Definition is_str (v : value) : bool :=
  match v with VStr _ => true | _ => false end.

(** The result of a call that may raise. *)
Inductive res (A : Type) : Type :=
| Val (a : A)
| Exc (msg : string).
Arguments Val {A} a.
Arguments Exc {A} msg.

(** [class Action(BaseModel)] *)
Record Action : Type := mkAction {
  thought : string;
  tool : string;
  tool_input : value
}.

(** The values admitted by the [Literal] annotation of [Action.tool]. *)
Definition Action_tool_literals : list string :=
  [ "tavily_search_results_json";
    "calculator_tool";
    "wolfram_alpha_tool";
    "blog_template_tool";
    "ask_user_tool";
    "create_study_plan_tool";
    "Final Answer" ].

Definition Action_validates (a : Action) : bool :=
  bool_decide (tool a ∈ Action_tool_literals).

Definition nl : string := String (ascii_of_nat 10) EmptyString.

(** [needle in hay] on strings. *)
Definition contains (needle hay : string) : Prop :=
  ∃ pre post, hay = pre ++ needle ++ post.

(** ** The engine *)

Section Engine.

(** The state of everything outside the process. *)
Variable World : Type.

(** [str(v)] for a value that is not a [str]. *)
Variable repr : value → string.

(** [action_obj.model_dump_json()] *)
Variable model_dump_json : Action → string.

(** [_structured_llm.chat.completions.create(..., response_model=Action,
    messages=[{"role": "user", "content": prompt}])] *)
Variable _structured_llm : string → World → res Action * World.

(** [_prompt_template.format(user_query=, chat_history=,
    intermediate_steps=)] *)
Variable _prompt_template : string → string → string → res string.

(** A LangChain tool: its [name] and its [invoke] method. *)
Record Tool : Type := mkTool {
  name : string;
  invoke : value → World → res value * World
}.

(** String conversion as performed by an f-string field. *)
Definition py_str (v : value) : string :=
  match v with VStr s => s | _ => repr v end.

(** *** Calls issued by the engine *)

(** What the engine writes to the sidebar.  The display cuts the thought
    and the observation after 1000 characters; the log keeps them whole. *)
Inductive widget : Type :=
| SbIteration (n : nat)
| SbThought (t : string)
| SbAction (t : string)
| SbInput (v : value)
| SbObservation (v : value).

Inductive event : Type :=
| Sidebar (w : widget)
| LlmCall (prompt : string) (r : res Action)
| ToolCall (tool_name : string) (input : value) (r : res value).

Record St : Type := mkSt {
  world : World;
  calls : list event
}.

(** *** A state and exception monad *)

Definition Eng (A : Type) : Type := St → res A * St.

Definition ret {A} (a : A) : Eng A := λ st, (Val a, st).

Definition bind {A B} (m : Eng A) (k : A → Eng B) : Eng B :=
  λ st, match m st with
        | (Val a, st') => k a st'
        | (Exc e, st') => (Exc e, st')
        end.

(** [try: m except Exception as e: h(str(e))] *)
Definition try_except {A} (m : Eng A) (h : string → Eng A) : Eng A :=
  λ st, match m st with
        | (Val a, st') => (Val a, st')
        | (Exc e, st') => h e st'
        end.

Definition lift {A} (r : res A) : Eng A := λ st, (r, st).

Definition emit (e : event) : Eng unit :=
  λ st, (Val tt, mkSt (world st) (calls st ++ [e])).

Definition sidebar (w : widget) : Eng unit := emit (Sidebar w).

Definition create (prompt : string) : Eng Action :=
  λ st, let '(r, w) := _structured_llm prompt (world st) in
        (r, mkSt w (calls st ++ [LlmCall prompt r])).

Definition tool_invoke (t : Tool) (input : value) : Eng value :=
  λ st, let '(r, w) := invoke t input (world st) in
        (r, mkSt w (calls st ++ [ToolCall (name t) input r])).

Notation "x <- m ;; k" := (bind m (λ x, k))
  (at level 100, m at next level, right associativity).
Notation "m ;;; k" := (bind m (λ _, k))
  (at level 100, right associativity).

(** *** [run_structured_react_engine] *)

(** [{tool.name: tool for tool in _tools}]: a later tool replaces an
    earlier one of the same name. *)
Definition tool_map (_tools : list Tool) : gmap string Tool :=
  foldl (λ m t, <[name t := t]> m) ∅ _tools.

(** ["\n".join([f"Human: {h[0]}\nAssistant: {h[1]}" for h in chat_history])] *)
Definition history_str (chat_history : list (value * value)) : string :=
  String.concat nl
    (map (λ h, "Human: " ++ py_str (fst h) ++ nl ++ "Assistant: " ++ py_str (snd h))
         chat_history).

(** The outcome of one pass through the loop body: either the function
    returns, or the next pass starts with the updated step record. *)
Inductive ctl : Type :=
| Next (intermediate_steps_str : string)
| Return (v : value).

Definition final_answer : string := "Final Answer".
Definition ask_user : string := "ask_user_tool".

Definition ask_user_reply (question : value) : string :=
  "💬 **질문**: " ++ py_str question ++ nl ++ nl
  ++ "위 질문에 답변해 주시면, 그 정보를 바탕으로 맞춤형 계획을 세워드리겠습니다!".

Definition tool_error (e : string) : string :=
  "Tool 실행 중 오류 발생: " ++ e.

Definition tool_not_found (tool_name : string) : string :=
  "오류: '" ++ tool_name ++ "' Tool을 찾을 수 없습니다.".

Definition engine_error (e : string) : string :=
  "ReAct 엔진 실행 중 오류가 발생했습니다: " ++ e.

Definition max_iterations_message : string :=
  "최대 반복 횟수에 도달하여 작업을 종료합니다.".

(** The text appended to [intermediate_steps_str] after a pass. *)
Definition step_record (th : string) (action_obj : Action) (observation : value) : string :=
  nl ++ "Thought: " ++ th ++ nl ++ "Action: " ++ model_dump_json action_obj
  ++ nl ++ "Observation: " ++ py_str observation.

(** Step 5 of the body, "Tool 실행": the observation for a decision that
    is neither the final answer nor a question to the user. *)
Definition observe (tm : gmap string Tool) (action_obj : Action) : Eng value :=
  match tm !! tool action_obj with
  | Some tool_to_use =>
      sidebar (SbInput (tool_input action_obj)) ;;;
      try_except
        (observation <- tool_invoke tool_to_use (tool_input action_obj) ;;
         sidebar (SbObservation observation) ;;;
         ret observation)
        (λ e, ret (VStr (tool_error e)))
  | None => ret (VStr (tool_not_found (tool action_obj)))
  end.

(** Everything inside the outer [try] of the body. *)
Definition guarded (tm : gmap string Tool) (prompt steps : string) : Eng ctl :=
  action_obj <- create prompt ;;
  sidebar (SbThought (thought action_obj)) ;;;
  sidebar (SbAction (tool action_obj)) ;;;
  if String.eqb (tool action_obj) final_answer then
    ret (Return (tool_input action_obj))
  else if String.eqb (tool action_obj) ask_user then
    ret (Return (VStr (ask_user_reply (tool_input action_obj))))
  else
    observation <- observe tm action_obj ;;
    ret (Next (steps ++ step_record (thought action_obj) action_obj observation)).

(** The body of [for i in range(10)]. *)
Definition loop_body (user_query hist : string) (tm : gmap string Tool)
    (i : nat) (steps : string) : Eng ctl :=
  sidebar (SbIteration (i + 1)) ;;;
  prompt <- lift (_prompt_template user_query hist steps) ;;
  try_except
    (guarded tm prompt steps)
    (λ e, ret (Return (VStr (engine_error e)))).

(** [n] passes of the loop, the first with index [i]; a [return] in the
    body leaves the loop. *)
Fixpoint for_range (user_query hist : string) (tm : gmap string Tool)
    (n i : nat) (steps : string) : Eng ctl :=
  match n with
  | O => ret (Next steps)
  | S n' =>
      c <- loop_body user_query hist tm i steps ;;
      match c with
      | Return v => ret (Return v)
      | Next steps' => for_range user_query hist tm n' (S i) steps'
      end
  end.

Definition MAX_ITERS : nat := 10.

Definition run_structured_react_engine (user_query : string)
    (chat_history : list (value * value)) (_tools : list Tool) : Eng value :=
  let tm := tool_map _tools in
  let hist := history_str chat_history in
  c <- for_range user_query hist tm MAX_ITERS 0 "" ;;
  match c with
  | Return v => ret v
  | Next _ => ret (VStr max_iterations_message)
  end.

(** *** Results of the loop

    [and_then r k] continues with [k] after a loop result [r] that did not
    leave the loop; [finish r] is what the function returns after the
    loop result [r]. *)

Definition and_then (r : res ctl * St) (k : string → St → res ctl * St)
    : res ctl * St :=
  match r with
  | (Val (Next steps), st) => k steps st
  | (Val (Return v), st) => (Val (Return v), st)
  | (Exc e, st) => (Exc e, st)
  end.

Definition finish (r : res ctl * St) : res value * St :=
  match r with
  | (Val (Return v), st) => (Val v, st)
  | (Val (Next _), st) => (Val (VStr max_iterations_message), st)
  | (Exc e, st) => (Exc e, st)
  end.

(** *** The recorded steps as a sequence

    The specification describes the record of a run as an ordered
    sequence of (thought, decision, observation) entries; the source
    keeps only its rendering, the string [intermediate_steps_str]. *)

Definition entry : Type := (string * Action * value)%type.

Definition render_entry (e : entry) : string :=
  step_record (fst (fst e)) (snd (fst e)) (snd e).

Definition render_trace (tr : list entry) : string :=
  foldr (λ e acc, render_entry e ++ acc) "" tr.

(** The state in which step 5 of pass [i] starts, once the completion
    capability has answered [prompt] with the decision [a]. *)
Definition decided (i : nat) (prompt : string) (a : Action) (w : World) (st : St) : St :=
  mkSt w (calls st ++ [ Sidebar (SbIteration (i + 1));
                        LlmCall prompt (Val a);
                        Sidebar (SbThought (thought a));
                        Sidebar (SbAction (tool a)) ]).

(** [recorded q h tm steps n i st es st']: starting in state [st] with the
    step record [steps], the passes [i], ..., [i + n - 1] each complete
    with a decision and an observation, which are the entries [es] in
    this order, and leave the state [st']. *)
Inductive recorded (user_query hist : string) (tm : gmap string Tool)
  : string → nat → nat → St → list entry → St → Prop :=
| recorded_done steps i st :
    recorded user_query hist tm steps 0 i st [] st
| recorded_pass steps n i st prompt a w obs st1 es st' :
    _prompt_template user_query hist steps = Val prompt →
    _structured_llm prompt (world st) = (Val a, w) →
    tool a ≠ final_answer →
    tool a ≠ ask_user →
    observe tm a (decided i prompt a w st) = (Val obs, st1) →
    recorded user_query hist tm
      (steps ++ render_entry (thought a, a, obs)) n (S i) st1 es st' →
    recorded user_query hist tm steps (S n) i st ((thought a, a, obs) :: es) st'.

(** *** Counting the calls of a run *)

Definition is_llm_call (e : event) : bool :=
  match e with LlmCall _ _ => true | _ => false end.

Definition is_tool_call (e : event) : bool :=
  match e with ToolCall _ _ _ => true | _ => false end.

Definition is_iteration (e : event) : bool :=
  match e with Sidebar (SbIteration _) => true | _ => false end.

Fixpoint count_events (p : event → bool) (l : list event) : nat :=
  match l with
  | [] => 0
  | e :: l' => (if p e then 1 else 0) + count_events p l'
  end.

Definition count (p : event → bool) (st : St) : nat :=
  count_events p (calls st).

(** The decisions the completion capability has returned, oldest first. *)
Definition decisions (st : St) : list Action :=
  omap (λ e, match e with LlmCall _ (Val a) => Some a | _ => None end) (calls st).

(** *** [get_tools] *)

Section GetTools.

(** The bodies of the six tools are external capabilities. *)
Variables search_tool_invoke calculator_tool_invoke wolfram_alpha_tool_invoke
  blog_template_tool_invoke ask_user_tool_invoke create_study_plan_tool_invoke
  : value → World → res value * World.

Definition search_tool := mkTool "tavily_search_results_json" search_tool_invoke.
Definition calculator_tool := mkTool "calculator_tool" calculator_tool_invoke.
Definition wolfram_alpha_tool := mkTool "wolfram_alpha_tool" wolfram_alpha_tool_invoke.
Definition blog_template_tool := mkTool "blog_template_tool" blog_template_tool_invoke.
Definition ask_user_tool := mkTool "ask_user_tool" ask_user_tool_invoke.
Definition create_study_plan_tool :=
  mkTool "create_study_plan_tool" create_study_plan_tool_invoke.

Definition get_tools : list Tool :=
  [ search_tool;
    calculator_tool;
    wolfram_alpha_tool;
    blog_template_tool;
    ask_user_tool;
    create_study_plan_tool ].

End GetTools.

End Engine.

Arguments mkTool {World} name invoke.
Arguments name {World} _.
Arguments invoke {World} _ _ _.
Arguments mkSt {World} world calls.
Arguments world {World} _.
Arguments calls {World} _.
Arguments ret {World A} a _.
Arguments bind {World A B} m k _.
Arguments try_except {World A} m h _.
Arguments lift {World A} r _.
Arguments emit {World} e _.
Arguments sidebar {World} w _.
Arguments create {World} _structured_llm prompt _.
Arguments tool_invoke {World} t input _.
Arguments tool_map {World} _tools.
Arguments observe {World} tm action_obj _.
Arguments guarded {World} repr model_dump_json _structured_llm tm prompt steps _.
Arguments loop_body {World} repr model_dump_json _structured_llm _prompt_template
  user_query hist tm i steps _.
Arguments for_range {World} repr model_dump_json _structured_llm _prompt_template
  user_query hist tm n i steps _.
Arguments run_structured_react_engine {World} repr model_dump_json _structured_llm
  _prompt_template user_query chat_history _tools _.
Arguments and_then {World} r k.
Arguments finish {World} r.
Arguments decided {World} i prompt a w st.
Arguments recorded {World} repr model_dump_json _structured_llm _prompt_template
  user_query hist tm _ _ _ _ _ _.
Arguments count {World} p st.
Arguments decisions {World} st.
Arguments get_tools {World} _ _ _ _ _ _.

(** ** Test doubles

    Stand-ins for the collaborators, used to run the engine on concrete
    inputs.  The world of a scripted completion capability is the number of
    requests it has answered. *)

Definition scripted (script : list (res Action)) : string → nat → res Action * nat :=
  λ _ w, (nth w script (Exc "no scripted response left"), S w).

(** A template that places its three variables one after the other. *)
Definition plain_template : string → string → string → res string :=
  λ user_query chat_history intermediate_steps,
    Val (chat_history ++ intermediate_steps ++ user_query).

(** A template whose [format] raises. *)
Definition broken_template : string → string → string → res string :=
  λ _ _ _, Exc "KeyError: 'input'".

(** A template whose [format] raises once a step has been recorded. *)
Definition first_pass_template : string → string → string → res string :=
  λ user_query chat_history intermediate_steps,
    match intermediate_steps with
    | EmptyString => Val (chat_history ++ user_query)
    | String _ _ => Exc "KeyError: 'steps'"
    end.

Definition plain_repr : value → string := λ _, "<object>".

Definition plain_dump : Action → string := λ a, tool a.

Definition constant_tool (n : string) (out : value) : Tool nat :=
  mkTool n (λ _ w, (Val out, w)).

Definition failing_tool (n : string) (e : string) : Tool nat :=
  mkTool n (λ _ w, (Exc e, w)).

Definition st0 : St nat := mkSt 0 [].

Definition run_mock (script : list (res Action))
    (template : string → string → string → res string)
    (user_query : string) (_tools : list (Tool nat)) : res value * St nat :=
  run_structured_react_engine plain_repr plain_dump (scripted script) template
    user_query [] _tools st0.


(** The decisions and tools of the scenarios. *)

Definition calculate (expression : string) : Action :=
  mkAction "계산이 필요하다" "calculator_tool" (VStr expression).

Definition answer (v : value) : Action :=
  mkAction "답을 알았다" "Final Answer" v.

Definition ask (question : string) : Action :=
  mkAction "정보가 더 필요하다" "ask_user_tool" (VStr question).

Definition translate (text : string) : Action :=
  mkAction "번역해 보자" "translator_tool" (VStr text).

Definition calculator_returning (out : string) : Tool nat :=
  constant_tool "calculator_tool" (VStr out).

Definition calculator_raising (e : string) : Tool nat :=
  failing_tool "calculator_tool" e.

(** The completion capability keeps asking for a calculation. *)
Definition never_done : list (res Action) := replicate 10 (Val (calculate "1+1")).

(** "2+2가 뭐야?": one calculation, then the final answer. *)
Definition two_plus_two : list (res Action) :=
  [ Val (calculate "2+2"); Val (answer (VStr "2+2는 4입니다.")) ].

(** A final answer whose [tool_input] is a JSON object. *)
Definition structured_answer : value :=
  VDict [("answer", VStr "4"); ("unit", VNone)].

(** Two tools registered under one name. *)
Definition colliding_tools : list (Tool nat) :=
  [ calculator_returning "first"; calculator_returning "second" ].

(** The six tools of [get_tools], each with a body that returns [None]. *)
Definition idle : value → nat → res value * nat := λ _ w, (Val VNone, w).

Definition idle_tools : list (Tool nat) := get_tools idle idle idle idle idle idle.

(** The engine run with test doubles from the initial state [st0], and the
    loop and the completed passes of such a run. *)
Definition mock_passes (script : list (res Action)) (user_query : string)
    (_tools : list (Tool nat)) (n : nat) : res ctl * St nat :=
  for_range plain_repr plain_dump (scripted script) plain_template
    user_query (history_str plain_repr []) (tool_map _tools) n 0 "" st0.

Definition mock_completed (script : list (res Action)) (user_query : string)
    (_tools : list (Tool nat)) (n : nat) (es : list entry) (st : St nat) : Prop :=
  recorded plain_repr plain_dump (scripted script) plain_template
    user_query (history_str plain_repr []) (tool_map _tools) "" n 0 st0 es st.

(** ** The bodies of the tools of [get_tools]

    The functions that [get_tools] decorates with [@tool].  The LangChain
    wrapper that parses the argument of [invoke] is not part of them. *)

(** [needle in hay] as a test. *)
Fixpoint substring_in (needle hay : string) : bool :=
  String.prefix needle hay
  || match hay with
     | EmptyString => false
     | String _ hay' => substring_in needle hay'
     end.

(** [blog_template_tool]; the texts hold the two characters backslash and
    [n] where the source writes a doubled backslash. *)
Definition blog_template_technical : string :=
  "## 제목\n\n### 1. 기술 개요\n\n### 2. 핵심 작동 원리\n\n### 3. 장단점 분석\n\n### 4. 실무 적용 사례\n\n### 5. 결론 및 향후 전망".

Definition blog_template_review : string :=
  "## 제목\n\n### 1. 첫인상 및 디자인\n\n### 2. 주요 기능 및 성능 테스트\n\n### 3. 실사용 후기\n\n### 4. 총평 및 추천 대상".

Definition blog_template_unsupported : string :=
  "오류: '기술 분석' 또는 '제품 리뷰' 스타일만 지원합니다.".

Definition blog_template_tool_func (style : string) : string :=
  if String.eqb style "기술 분석" then blog_template_technical
  else if String.eqb style "제품 리뷰" then blog_template_review
  else blog_template_unsupported.

Section StudyPlan.

(** [str.lower] *)
Variable lower : string → string.

Definition exam_plan (user_info : string) : string :=
  String.concat nl
    [ "";
      "    ## 📚 맞춤형 수능 수학 학습 계획";
      "";
      "    **사용자 현황:** " ++ user_info;
      "";
      "    ### 1단계: 현재 실력 점검 (1주차)";
      "    - 기출문제 3개년 풀어보기";
      "    - 약점 영역 파악";
      "";
      "    ### 2단계: 개념 정리 (2-4주차)";
      "    - 부족한 단원 집중 학습";
      "    - 공식 암기 및 이해";
      "";
      "    ### 3단계: 문제 유형별 연습 (5-8주차)";
      "    - 킬러 문제 유형 분석";
      "    - 시간 단축 연습";
      "";
      "    ### 4단계: 실전 모의고사 (9-12주차)";
      "    - 주 2회 모의고사";
      "    - 오답 노트 작성";
      "            " ].

Definition blog_plan (user_info : string) : string :=
  String.concat nl
    [ "";
      "    ## ✍️ 맞춤형 블로그 시작 계획";
      "";
      "    **사용자 현황:** " ++ user_info;
      "";
      "    ### 1단계: 주제 및 타겟 독자 설정";
      "    - 관심 분야와 전문성 연결";
      "    - 독자층 명확화";
      "";
      "    ### 2단계: 콘텐츠 전략 수립";
      "    - 포스팅 주기 결정";
      "    - 콘텐츠 캘린더 작성";
      "";
      "    ### 3단계: 첫 포스팅 발행";
      "    - 자기소개 글 작성";
      "    - SEO 최적화 적용";
      "            " ].

(** [create_study_plan_tool]; a function body that ends without [return]
    returns [None]. *)
Definition create_study_plan_tool_func (user_info : string) : value :=
  if substring_in "수능" (lower user_info) || substring_in "수학" (lower user_info) then
    VStr (exam_plan user_info)
  else if substring_in "블로그" (lower user_info) then
    VStr (blog_plan user_info)
  else VNone.

End StudyPlan.

(** ** The schema in the prompt template ([get_llm_and_template]) *)

(** [s.replace(old, new)] for a pattern [old] of one character. *)
Fixpoint replace_char (old : ascii) (new : string) (s : string) : string :=
  match s with
  | EmptyString => EmptyString
  | String c s' =>
      if Ascii.eqb c old then new ++ replace_char old new s'
      else String c (replace_char old new s')
  end.

(** [action_schema]: the JSON schema of [Action] with its braces doubled,
    [schema_json] being [json.dumps(Action.model_json_schema(), indent=2)]. *)
Definition action_schema (schema_json : string) : string :=
  replace_char "}" "}}" (replace_char "{" "{{" schema_json).

(** The text a format string stands for when it has no replacement field:
    a doubled brace reads as one brace, and a brace that is not doubled
    opens a field or is an error. *)
Fixpoint format_literal (s : string) : option string :=
  match s with
  | EmptyString => Some EmptyString
  | String c s' =>
      if Ascii.eqb c "{" then
        match s' with
        | String c' s'' =>
            if Ascii.eqb c' "{" then option_map (String "{") (format_literal s'')
            else None
        | EmptyString => None
        end
      else if Ascii.eqb c "}" then
        match s' with
        | String c' s'' =>
            if Ascii.eqb c' "}" then option_map (String "}") (format_literal s'')
            else None
        | EmptyString => None
        end
      else option_map (String c) (format_literal s')
  end.

(** The block of one turn in the history string of the engine. *)
Definition history_line (repr : value → string) (h : value * value) : string :=
  "Human: " ++ py_str repr (fst h) ++ nl ++ "Assistant: " ++ py_str repr (snd h).

(** ** The chat page

    The main logic of the Streamlit page for one submitted prompt.  The
    session state holds the displayed messages (role and content) and the
    chat history; drawing the page is left out. *)

Record Session : Type := mkSession {
  messages : list (string * value);
  chat_history : list (value * value)
}.

(** [st.session_state] as the page initialises it. *)
Definition new_session : Session := mkSession [] [].

Section ChatPage.

Context {World : Type}.
Variable repr : value → string.
Variable model_dump_json : Action → string.
Variable _structured_llm : string → World → res Action * World.
Variable _prompt_template : string → string → string → res string.
Variable tools : list (Tool World).

(** The body of [if prompt := st.chat_input(...)].  An exception raised by
    the engine leaves the page script after the user message was stored. *)
Definition chat_turn (prompt : string) (s : Session) (st : St World)
    : res unit * Session * St World :=
  let s1 := mkSession (messages s ++ [("user", VStr prompt)]) (chat_history s) in
  match run_structured_react_engine repr model_dump_json _structured_llm
          _prompt_template prompt (chat_history s1) tools st with
  | (Val response, st') =>
      (Val tt,
       mkSession (messages s1 ++ [("assistant", response)])
                 (chat_history s1 ++ [(VStr prompt, response)]),
       st')
  | (Exc e, st') => (Exc e, s1, st')
  end.

End ChatPage.

(** The messages that a chat history accounts for. *)
Definition messages_of (history : list (value * value)) : list (string * value) :=
  flat_map (λ h, [("user", fst h); ("assistant", snd h)]) history.

(** A prompt submitted to the page with test doubles, from the initial
    state [st0]. *)
Definition mock_turn (script : list (res Action))
    (template : string → string → string → res string)
    (_tools : list (Tool nat)) (prompt : string) (s : Session)
    : res unit * Session * St nat :=
  chat_turn plain_repr plain_dump (scripted script) template _tools prompt s st0.

(** [str.lower] on a text without cased letters. *)
Definition uncased : string → string := λ s, s.

(** A decision request that fails after one calculation. *)
Definition fails_on_second_request : list (res Action) :=
  [ Val (calculate "2+2"); Exc "ValidationError: tool" ].

(** ** The order of the calls of a run

    [well_dispatched known pending log]: in [log], every tool invocation
    follows a decision that names the invoked tool and carries the input
    passed to it, the tool is neither of the two sentinels and satisfies
    [known], and no decision is followed by a second invocation.
    [pending] is the decision not yet followed by an invocation. *)
Fixpoint well_dispatched (known : string → Prop) (pending : option Action)
    (log : list event) : Prop :=
  match log with
  | [] => True
  | Sidebar _ :: log' => well_dispatched known pending log'
  | LlmCall _ (Val a) :: log' => well_dispatched known (Some a) log'
  | LlmCall _ (Exc _) :: log' => well_dispatched known None log'
  | ToolCall n input _ :: log' =>
      (∃ a, pending = Some a ∧ n = tool a ∧ input = tool_input a
            ∧ tool a ≠ final_answer ∧ tool a ≠ ask_user ∧ known n)
      ∧ well_dispatched known None log'
  end.

(** ** Properties of the engine *)

Section Properties.

Local Open Scope nat_scope.

Context {World : Type}.
Variable repr : value → string.
Variable model_dump_json : Action → string.
Variable _structured_llm : string → World → res Action * World.
Variable _prompt_template : string → string → string → res string.

Implicit Types (st : St World) (tm : gmap string (Tool World)) (a : Action).

(** *** Strings *)

Lemma append_cons (c : ascii) (s1 s2 : string) :
  String c s1 ++ s2 = String c (s1 ++ s2).
Proof. reflexivity. Qed.

Lemma append_assoc (s1 s2 s3 : string) : (s1 ++ s2) ++ s3 = s1 ++ s2 ++ s3.
Proof. induction s1 as [|c s1 IH]; [done|]. by rewrite !append_cons, IH. Qed.

Lemma append_nil_r (s : string) : s ++ "" = s.
Proof. induction s as [|c s IH]; [done|]. by rewrite append_cons, IH. Qed.

Lemma contains_middle (pre needle post : string) :
  contains needle (pre ++ needle ++ post).
Proof. by exists pre, post. Qed.

Lemma contains_suffix (pre needle : string) : contains needle (pre ++ needle).
Proof. exists pre, "". by rewrite append_nil_r. Qed.

Lemma contains_app_l (needle s1 s2 : string) :
  contains needle s1 → contains needle (s1 ++ s2).
Proof. intros (pre & post & ->). exists pre, (post ++ s2). by rewrite !append_assoc. Qed.

Lemma contains_app_r (needle s1 s2 : string) :
  contains needle s2 → contains needle (s1 ++ s2).
Proof. intros (pre & post & ->). exists (s1 ++ pre), post. by rewrite !append_assoc. Qed.

Lemma eqb_false_of_ne (s1 s2 : string) : s1 ≠ s2 → String.eqb s1 s2 = false.
Proof. intros H. by apply String.eqb_neq. Qed.

(** *** The call log *)

Lemma count_events_app p (l1 l2 : list event) :
  count_events p (l1 ++ l2) = count_events p l1 + count_events p l2.
Proof. induction l1 as [|e l1 IH]; simpl; [done|rewrite IH; lia]. Qed.

Lemma count_logged p (w w' : World) (l l' : list event) :
  count p (mkSt w' (l ++ l')) = count p (mkSt w l) + count_events p l'.
Proof. unfold count; simpl. apply count_events_app. Qed.

Lemma decisions_logged (w w' : World) (l l' : list event) :
  decisions (mkSt w' (l ++ l')) = (decisions (mkSt w l) ++ decisions (mkSt w l'))%list.
Proof. unfold decisions; simpl. apply omap_app. Qed.

(** *** The tool map *)

Lemma tool_map_snoc (tools : list (Tool World)) (t : Tool World) :
  tool_map (tools ++ [t]) = <[name t := t]> (tool_map tools).
Proof. unfold tool_map. by rewrite foldl_app. Qed.

Lemma tool_map_lookup_None (tools : list (Tool World)) (n : string) :
  tool_map tools !! n = None ↔ n ∉ map name tools.
Proof.
  clear repr model_dump_json _structured_llm _prompt_template.
  induction tools as [|t tools IH] using rev_ind.
  - split; [intros _; apply not_elem_of_nil|done].
  - rewrite tool_map_snoc, map_app, not_elem_of_app; simpl.
    rewrite lookup_insert_None, IH, list_elem_of_singleton. intuition congruence.
Qed.

Lemma tool_map_lookup_Some (tools : list (Tool World)) (n : string) (t : Tool World) :
  tool_map tools !! n = Some t → t ∈ tools ∧ name t = n.
Proof.
  induction tools as [|t' tools IH] using rev_ind.
  - done.
  - rewrite tool_map_snoc, lookup_insert_Some, elem_of_app, list_elem_of_singleton.
    intros [[<- <-]|[_ H]]; [by auto|]. destruct (IH H); auto.
Qed.

(** A name that occurs again keeps only its last tool. *)
Lemma tool_map_last (l1 l2 : list (Tool World)) (t : Tool World) :
  name t ∉ map name l2 →
  tool_map (l1 ++ t :: l2) !! name t = Some t.
Proof.
  induction l2 as [|t' l2 IH] using rev_ind; intros Hn.
  - rewrite tool_map_snoc. apply lookup_insert_eq.
  - rewrite map_app, not_elem_of_app in Hn. destruct Hn as [Hn Hne].
    simpl in Hne. rewrite list_elem_of_singleton in Hne.
    replace (l1 ++ t :: l2 ++ [t'])%list with ((l1 ++ t :: l2) ++ [t'])%list
      by (by rewrite <- app_assoc).
    rewrite tool_map_snoc, lookup_insert_ne by done. by apply IH.
Qed.

(** *** One pass of the loop *)

Section Loop.

Variables user_query hist : string.
Variable tm : gmap string (Tool World).

Abbreviation body :=
  (loop_body repr model_dump_json _structured_llm _prompt_template user_query hist tm).
Abbreviation loop :=
  (for_range repr model_dump_json _structured_llm _prompt_template user_query hist tm).
Abbreviation record := (step_record repr model_dump_json).

Ltac eng_unfold :=
  unfold loop_body, guarded, observe, tool_invoke, create, sidebar, emit, lift,
    try_except, bind, ret, decided.

Ltac log_assoc := simpl; rewrite <- ?app_assoc; simpl.

Lemma observe_not_found a st :
  tm !! tool a = None →
  observe tm a st = (Val (VStr (tool_not_found (tool a))), st).
Proof. intros H. eng_unfold. by rewrite H. Qed.

Lemma observe_ok a st (t : Tool World) v w :
  tm !! tool a = Some t →
  invoke t (tool_input a) (world st) = (Val v, w) →
  observe tm a st =
    (Val v, mkSt w (calls st ++ [ Sidebar (SbInput (tool_input a));
                                   ToolCall (name t) (tool_input a) (Val v);
                                   Sidebar (SbObservation v) ])).
Proof. intros H Hi. eng_unfold. rewrite H; simpl. rewrite Hi. by log_assoc. Qed.

Lemma observe_raise a st (t : Tool World) e w :
  tm !! tool a = Some t →
  invoke t (tool_input a) (world st) = (Exc e, w) →
  observe tm a st =
    (Val (VStr (tool_error e)),
     mkSt w (calls st ++ [ Sidebar (SbInput (tool_input a));
                           ToolCall (name t) (tool_input a) (Exc e) ])).
Proof. intros H Hi. eng_unfold. rewrite H; simpl. rewrite Hi. by log_assoc. Qed.

(** Step 5 always produces an observation: it never raises, issues no
    completion request and invokes at most one tool. *)
Lemma observe_total a st :
  ∃ obs st', observe tm a st = (Val obs, st')
    ∧ count is_llm_call st' = count is_llm_call st
    ∧ count is_iteration st' = count is_iteration st
    ∧ count is_tool_call st' ≤ count is_tool_call st + 1
    ∧ decisions st' = decisions st.
Proof.
  destruct st as [w0 l0].
  destruct (tm !! tool a) as [t|] eqn:Ht.
  - destruct (invoke t (tool_input a) w0) as [[v|e] w] eqn:Hi.
    + eexists _, _. split; [by eapply observe_ok|]. simpl.
      rewrite !(count_logged _ w0), (decisions_logged w0); simpl.
      rewrite app_nil_r. repeat split; lia.
    + eexists _, _. split; [by eapply observe_raise|]. simpl.
      rewrite !(count_logged _ w0), (decisions_logged w0); simpl.
      rewrite app_nil_r. repeat split; lia.
  - eexists _, _. split; [by apply observe_not_found|]. repeat split; lia.
Qed.

Lemma body_format_raises i steps st e :
  _prompt_template user_query hist steps = Exc e →
  body i steps st =
    (Exc e, mkSt (world st) (calls st ++ [Sidebar (SbIteration (i + 1))])).
Proof. intros H. eng_unfold. simpl. by rewrite H. Qed.

Lemma body_llm_raises i steps st prompt e w :
  _prompt_template user_query hist steps = Val prompt →
  _structured_llm prompt (world st) = (Exc e, w) →
  body i steps st =
    (Val (Return (VStr (engine_error e))),
     mkSt w (calls st ++ [ Sidebar (SbIteration (i + 1));
                           LlmCall prompt (Exc e) ])).
Proof. intros H Hl. eng_unfold. simpl. rewrite H; simpl. rewrite Hl. by log_assoc. Qed.

Lemma body_final_answer i steps st prompt a w :
  _prompt_template user_query hist steps = Val prompt →
  _structured_llm prompt (world st) = (Val a, w) →
  tool a = final_answer →
  body i steps st = (Val (Return (tool_input a)), decided i prompt a w st).
Proof.
  intros H Hl Ht. eng_unfold. simpl. rewrite H; simpl. rewrite Hl; simpl.
  rewrite Ht; simpl. by log_assoc.
Qed.

Lemma body_ask_user i steps st prompt a w :
  _prompt_template user_query hist steps = Val prompt →
  _structured_llm prompt (world st) = (Val a, w) →
  tool a = ask_user →
  body i steps st =
    (Val (Return (VStr (ask_user_reply repr (tool_input a)))), decided i prompt a w st).
Proof.
  intros H Hl Ht. eng_unfold. simpl. rewrite H; simpl. rewrite Hl; simpl.
  rewrite Ht; simpl. by log_assoc.
Qed.

Lemma body_observe i steps st prompt a w obs st1 :
  _prompt_template user_query hist steps = Val prompt →
  _structured_llm prompt (world st) = (Val a, w) →
  tool a ≠ final_answer →
  tool a ≠ ask_user →
  observe tm a (decided i prompt a w st) = (Val obs, st1) →
  body i steps st = (Val (Next (steps ++ record (thought a) a obs)), st1).
Proof.
  intros H Hl Hf Hq Ho. unfold loop_body, guarded, create, sidebar, emit, lift,
    try_except, bind, ret. simpl. rewrite H; simpl. rewrite Hl; simpl.
  rewrite (eqb_false_of_ne _ _ Hf), (eqb_false_of_ne _ _ Hq).
  unfold decided in Ho. rewrite <- !app_assoc. simpl. by rewrite Ho.
Qed.

(** The five ways in which a pass can end. *)
Lemma body_cases i steps st :
  (∃ e, _prompt_template user_query hist steps = Exc e
        ∧ body i steps st =
            (Exc e, mkSt (world st) (calls st ++ [Sidebar (SbIteration (i + 1))])))
  ∨ (∃ prompt e w,
        _prompt_template user_query hist steps = Val prompt
        ∧ _structured_llm prompt (world st) = (Exc e, w)
        ∧ body i steps st =
            (Val (Return (VStr (engine_error e))),
             mkSt w (calls st ++ [ Sidebar (SbIteration (i + 1));
                                   LlmCall prompt (Exc e) ])))
  ∨ (∃ prompt a w,
        _prompt_template user_query hist steps = Val prompt
        ∧ _structured_llm prompt (world st) = (Val a, w)
        ∧ ((tool a = final_answer
            ∧ body i steps st =
                (Val (Return (tool_input a)), decided i prompt a w st))
           ∨ (tool a = ask_user
              ∧ body i steps st =
                  (Val (Return (VStr (ask_user_reply repr (tool_input a)))),
                   decided i prompt a w st))
           ∨ (tool a ≠ final_answer ∧ tool a ≠ ask_user
              ∧ ∃ obs st1,
                  observe tm a (decided i prompt a w st) = (Val obs, st1)
                  ∧ body i steps st =
                      (Val (Next (steps ++ record (thought a) a obs)), st1)))).
Proof.
  destruct (_prompt_template user_query hist steps) as [prompt|e] eqn:Hp.
  2:{ left. exists e. split; [done|]. by apply body_format_raises. }
  right.
  destruct (_structured_llm prompt (world st)) as [[a|e] w] eqn:Hl.
  2:{ left. exists prompt, e, w. repeat split; [done..|]. by apply body_llm_raises. }
  right. exists prompt, a, w. split; [done|]. split; [done|].
  destruct (decide (tool a = final_answer)) as [Hf|Hf].
  { left. split; [done|]. by apply body_final_answer. }
  right.
  destruct (decide (tool a = ask_user)) as [Hq|Hq].
  { left. split; [done|]. by apply body_ask_user. }
  right. split; [done|]. split; [done|].
  destruct (observe_total a (decided i prompt a w st)) as (obs & st1 & Ho & _).
  exists obs, st1. split; [done|]. by apply (body_observe _ _ _ prompt a w).
Qed.

Lemma count_decided p i prompt a w st :
  count p (decided i prompt a w st) =
    count p st + count_events p [ Sidebar (SbIteration (i + 1));
                                 LlmCall prompt (Val a);
                                 Sidebar (SbThought (thought a));
                                 Sidebar (SbAction (tool a)) ].
Proof. destruct st as [w0 l0]. apply count_logged. Qed.

Lemma decisions_decided i prompt a w st :
  decisions (decided i prompt a w st) = (decisions st ++ [a])%list.
Proof. destruct st as [w0 l0]. unfold decided. by rewrite (decisions_logged w0). Qed.

(** What one pass adds to the call log. *)
Lemma body_counts i steps st r st' :
  body i steps st = (r, st') →
  count is_iteration st' = count is_iteration st + 1
  ∧ count is_llm_call st' ≤ count is_llm_call st + 1
  ∧ count is_tool_call st' ≤ count is_tool_call st + 1
  ∧ (∀ s, r = Val (Next s) → count is_llm_call st' = count is_llm_call st + 1)
  ∧ (∀ e, r = Exc e → _prompt_template user_query hist steps = Exc e).
Proof.
  intros Hb.
  destruct (body_cases i steps st)
    as [(e & Hp & He)
       |[(prompt & e & w & Hp & Hl & He)
        |(prompt & a & w & Hp & Hl &
            [[Hf He]|[[Hq He]|(Hf & Hq & obs & st1 & Ho & He)]])]];
    rewrite He in Hb; injection Hb as <- <-.
  - destruct st as [w0 l0]; simpl. rewrite !(count_logged _ w0); simpl.
    repeat split; try lia; [done|congruence].
  - destruct st as [w0 l0]; simpl. rewrite !(count_logged _ w0); simpl.
    repeat split; try lia; done.
  - rewrite !count_decided; simpl. repeat split; try lia; done.
  - rewrite !count_decided; simpl. repeat split; try lia; done.
  - destruct (observe_total a (decided i prompt a w st))
      as (obs' & st2 & Ho' & Hc1 & Hc2 & Hc3 & _).
    rewrite Ho in Ho'. injection Ho' as <- <-.
    rewrite Hc1, Hc2. rewrite !count_decided in *; simpl in *.
    repeat split; try lia; done.
Qed.

(** *** The loop *)

Lemma for_range_S n i steps st :
  loop (S n) i steps st = and_then (body i steps st) (loop n (S i)).
Proof.
  simpl. unfold bind, and_then.
  by destruct (body i steps st) as [[[s|v]|e] st1].
Qed.

Lemma for_range_split n m i steps st :
  loop (n + m) i steps st = and_then (loop n i steps st) (loop m (i + n)).
Proof.
  revert i steps st. induction n as [|n IH]; intros i steps st.
  - simpl. unfold ret, and_then. by rewrite Nat.add_0_r.
  - replace (S n + m) with (S (n + m)) by lia. rewrite !for_range_S.
    destruct (body i steps st) as [[[s|v]|e] st1]; simpl; [|done..].
    rewrite IH. by replace (S i + n) with (i + S n) by lia.
Qed.

Lemma for_range_counts n i steps st r st' :
  loop n i steps st = (r, st') →
  count is_iteration st' ≤ count is_iteration st + n
  ∧ count is_llm_call st' ≤ count is_llm_call st + n
  ∧ count is_tool_call st' ≤ count is_tool_call st + n
  ∧ (∀ s, r = Val (Next s) →
       count is_iteration st' = count is_iteration st + n
       ∧ count is_llm_call st' = count is_llm_call st + n)
  ∧ (∀ e, r = Exc e → ∃ s, _prompt_template user_query hist s = Exc e).
Proof.
  revert i steps st. induction n as [|n IH]; intros i steps st.
  - simpl. unfold ret. intros [= <- <-].
    do 3 (split; [lia|]). split; [intros; lia|done].
  - rewrite for_range_S.
    destruct (body i steps st) as [r1 st1] eqn:Hb.
    destruct (body_counts _ _ _ _ _ Hb) as (Hi & Hl & Ht & Hn & He).
    destruct r1 as [[s|v]|e]; simpl.
    + intros Hr. destruct (IH _ _ _ Hr) as (Hi' & Hl' & Ht' & Hn' & He').
      specialize (Hn s eq_refl).
      do 3 (split; [lia|]). split; [|done].
      intros s' Hs. destruct (Hn' s' Hs). lia.
    + intros [= <- <-]. do 3 (split; [lia|]). split; done.
    + intros [= <- <-]. do 3 (split; [lia|]). split; [done|].
      intros e' [= <-]. exists steps. by apply He.
Qed.

(** Passes that all complete record one entry each. *)
Lemma for_range_recorded n i steps st s' st' :
  loop n i steps st = (Val (Next s'), st') →
  ∃ es, recorded repr model_dump_json _structured_llm _prompt_template
          user_query hist tm steps n i st es st'
        ∧ length es = n
        ∧ s' = steps ++ render_trace repr model_dump_json es.
Proof.
  revert i steps st. induction n as [|n IH]; intros i steps st.
  - simpl. unfold ret. intros [= <- <-]. exists []. simpl.
    rewrite append_nil_r. repeat split. constructor.
  - rewrite for_range_S.
    destruct (body_cases i steps st)
      as [(e & Hp & He)
         |[(prompt & e & w & Hp & Hl & He)
          |(prompt & a & w & Hp & Hl &
              [[Hf He]|[[Hq He]|(Hf & Hq & obs & st1 & Ho & He)]])]];
      rewrite He; simpl; try done.
    intros Hr. destruct (IH _ _ _ Hr) as (es & Hrec & Hlen & ->).
    exists ((thought a, a, obs) :: es). split; [|split].
    + by eapply recorded_pass.
    + simpl. by rewrite Hlen.
    + simpl. unfold render_entry; simpl. by rewrite append_assoc.
Qed.

(** The entries carry the decisions of the passes, in the order in which
    the completion capability returned them, each with its own thought. *)
Lemma recorded_decisions steps n i st es st' :
  recorded repr model_dump_json _structured_llm _prompt_template
    user_query hist tm steps n i st es st' →
  decisions st' = (decisions st ++ map (λ e : entry, snd (fst e)) es)%list
  ∧ Forall (λ e : entry, fst (fst e) = thought (snd (fst e))) es
  ∧ length es = n.
Proof.
  induction 1 as [steps i st|steps n i st prompt a w obs st1 es st' Hp Hl Hf Hq Ho _ IH].
  - simpl. by rewrite app_nil_r.
  - destruct IH as (Hd & Hth & Hlen).
    destruct (observe_total a (decided i prompt a w st))
      as (obs' & st2 & Ho' & _ & _ & _ & Hdec).
    rewrite Ho in Ho'. injection Ho' as <- <-.
    rewrite Hd, Hdec, decisions_decided. simpl. rewrite <- app_assoc. simpl.
    repeat split; [by constructor|by rewrite Hlen].
Qed.

(** A value returned from inside the loop is text, unless it is the
    [tool_input] of the final-answer decision just received. *)
Lemma for_range_returns n i steps st v st' :
  loop n i steps st = (Val (Return v), st') →
  is_str v = true
  ∨ ∃ a, last (decisions st') = Some a ∧ tool a = final_answer ∧ v = tool_input a.
Proof.
  revert i steps st. induction n as [|n IH]; intros i steps st.
  - simpl. unfold ret. done.
  - rewrite for_range_S.
    destruct (body_cases i steps st)
      as [(e & Hp & He)
         |[(prompt & e & w & Hp & Hl & He)
          |(prompt & a & w & Hp & Hl &
              [[Hf He]|[[Hq He]|(Hf & Hq & obs & st1 & Ho & He)]])]];
      rewrite He; simpl; try done.
    + intros [= <- <-]. by left.
    + intros [= <- <-]. right. exists a.
      rewrite decisions_decided, last_snoc. done.
    + intros [= <- <-]. by left.
    + apply IH.
Qed.

Lemma render_trace_app (es1 es2 : list entry) :
  render_trace repr model_dump_json (es1 ++ es2) =
    render_trace repr model_dump_json es1 ++ render_trace repr model_dump_json es2.
Proof.
  induction es1 as [|e es1 IH]; simpl; [done|]. by rewrite IH, append_assoc.
Qed.

Lemma render_trace_snoc (es : list entry) (e : entry) :
  render_trace repr model_dump_json (es ++ [e]) =
    render_trace repr model_dump_json es ++ render_entry repr model_dump_json e.
Proof. rewrite render_trace_app. simpl. by rewrite append_nil_r. Qed.

Lemma recorded_for_range steps n i st es st' :
  recorded repr model_dump_json _structured_llm _prompt_template
    user_query hist tm steps n i st es st' →
  loop n i steps st = (Val (Next (steps ++ render_trace repr model_dump_json es)), st').
Proof.
  induction 1 as [steps i st|steps n i st prompt a w obs st1 es st' Hp Hl Hf Hq Ho _ IH].
  - simpl. unfold ret. by rewrite append_nil_r.
  - rewrite for_range_S, (body_observe _ _ _ prompt a w obs st1) by done.
    unfold and_then. etrans; [exact IH|]. simpl. by rewrite append_assoc.
Qed.

(** One more completed pass appends one entry. *)
Lemma recorded_snoc steps n i st es st_n prompt a w obs st1 :
  recorded repr model_dump_json _structured_llm _prompt_template
    user_query hist tm steps n i st es st_n →
  _prompt_template user_query hist (steps ++ render_trace repr model_dump_json es)
    = Val prompt →
  _structured_llm prompt (world st_n) = (Val a, w) →
  tool a ≠ final_answer →
  tool a ≠ ask_user →
  observe tm a (decided (i + n) prompt a w st_n) = (Val obs, st1) →
  recorded repr model_dump_json _structured_llm _prompt_template
    user_query hist tm steps (S n) i st (es ++ [(thought a, a, obs)]) st1.
Proof.
  induction 1 as [steps i st|steps n i st p0 a0 w0 obs0 st0' es st' Hp0 Hl0 Hf0 Hq0 Ho0 _ IH];
    intros Hp Hl Hf Hq Ho.
  - simpl in *. rewrite append_nil_r in Hp. rewrite Nat.add_0_r in Ho.
    eapply recorded_pass; eauto. constructor.
  - simpl. eapply recorded_pass; eauto. apply IH; try done.
    + simpl in Hp. by rewrite append_assoc.
    + by replace (S i + n) with (i + S n) by lia.
Qed.

(** The record after [m ≤ n] passes consists of the first [m] entries. *)
Lemma recorded_take steps n i st es st' m :
  recorded repr model_dump_json _structured_llm _prompt_template
    user_query hist tm steps n i st es st' →
  m ≤ n →
  ∃ st_m, recorded repr model_dump_json _structured_llm _prompt_template
            user_query hist tm steps m i st (take m es) st_m.
Proof.
  intros Hrec. revert m.
  induction Hrec as [steps i st|steps n i st prompt a w obs st1 es st' Hp Hl Hf Hq Ho _ IH];
    intros m Hm.
  - replace m with 0 by lia. exists st. constructor.
  - destruct m as [|m].
    + exists st. constructor.
    + destruct (IH m) as [st_m Hrm]; [lia|]. exists st_m. simpl.
      by eapply recorded_pass.
Qed.

End Loop.

(** *** The whole run *)

Abbreviation run :=
  (run_structured_react_engine repr model_dump_json _structured_llm _prompt_template).
Abbreviation passes q ch tools :=
  (for_range repr model_dump_json _structured_llm _prompt_template
     q (history_str repr ch) (tool_map tools)).
Abbreviation completed q ch tools :=
  (recorded repr model_dump_json _structured_llm _prompt_template
     q (history_str repr ch) (tool_map tools) "").
Abbreviation render := (render_trace repr model_dump_json).

Implicit Types (q : string) (ch : list (value * value)) (tools : list (Tool World)).

Lemma run_finish q ch tools st :
  run q ch tools st = finish (passes q ch tools MAX_ITERS 0 "" st).
Proof.
  unfold run_structured_react_engine, bind, finish, ret.
  by destruct (passes q ch tools MAX_ITERS 0 "" st) as [[[s|v]|e] st'].
Qed.

(** After [n] completed passes the run goes on with the remaining ones. *)
Lemma run_after q ch tools n st es st_n :
  n ≤ MAX_ITERS →
  completed q ch tools n 0 st es st_n →
  run q ch tools st = finish (passes q ch tools (MAX_ITERS - n) n (render es) st_n).
Proof.
  intros Hn Hrec. rewrite run_finish.
  replace MAX_ITERS with (n + (MAX_ITERS - n)) at 1 by lia.
  rewrite for_range_split, (recorded_for_range _ _ _ _ _ _ _ _ _ Hrec). done.
Qed.

Lemma remaining_S k : k < MAX_ITERS → MAX_ITERS - k = S (MAX_ITERS - S k).
Proof. lia. Qed.

Lemma completed_counts q ch tools n st es st_n :
  completed q ch tools n 0 st es st_n →
  count is_iteration st_n = count is_iteration st + n
  ∧ count is_llm_call st_n = count is_llm_call st + n.
Proof.
  intros Hrec. apply recorded_for_range in Hrec.
  destruct (for_range_counts _ _ _ _ _ _ _ _ _ Hrec) as (_ & _ & _ & Hn & _).
  by eapply Hn.
Qed.

(** The text of the step record, entry by entry. *)
Lemma render_snoc_text (es : list entry) th a obs :
  render (es ++ [(th, a, obs)]) =
    render es ++ nl ++ "Thought: " ++ th ++ nl ++ "Action: " ++ model_dump_json a
    ++ nl ++ "Observation: " ++ py_str repr obs.
Proof. by rewrite render_trace_snoc. Qed.

Lemma render_snoc_contains (es : list entry) th a obs :
  contains (py_str repr obs) (render (es ++ [(th, a, obs)])).
Proof.
  rewrite render_snoc_text.
  exists (render es ++ nl ++ "Thought: " ++ th ++ nl ++ "Action: " ++ model_dump_json a
          ++ nl ++ "Observation: "), "".
  by rewrite append_nil_r, !append_assoc.
Qed.

Lemma render_lookup_text (es : list entry) i th a obs :
  es !! i = Some (th, a, obs) →
  render es =
    render (take i es)
    ++ (nl ++ "Thought: " ++ th ++ nl ++ "Action: " ++ model_dump_json a
        ++ nl ++ "Observation: " ++ py_str repr obs)
    ++ render (drop (S i) es).
Proof.
  intros Hi. rewrite <- (take_drop_middle es i _ Hi) at 1.
  by rewrite render_trace_app.
Qed.

(** C1, as amended.  Every run ends after at most [MAX_ITERS] = 10 passes of
    the loop, with at most 10 completion requests and at most 10 tool
    invocations.  It ends by returning a value unless the prompt template
    raises: the only exception that ends a run is one raised while the
    prompt is rendered, so a run whose template renders returns a value.
    If all 10 passes complete with a decision and an observation (no final
    answer, no question to the user, no engine error), the run returns the
    fixed max-iterations message after exactly 10 completion requests. *)
Theorem run_terminates_within_budget q ch tools st :
  ∃ r st', run q ch tools st = (r, st')
    ∧ count is_iteration st' ≤ count is_iteration st + MAX_ITERS
    ∧ count is_llm_call st' ≤ count is_llm_call st + MAX_ITERS
    ∧ count is_tool_call st' ≤ count is_tool_call st + MAX_ITERS
    ∧ ((∀ s, ∃ p, _prompt_template q (history_str repr ch) s = Val p) →
         ∃ v, r = Val v)
    ∧ (∀ es st10, completed q ch tools MAX_ITERS 0 st es st10 →
         r = Val (VStr max_iterations_message)
         ∧ st' = st10
         ∧ count is_iteration st' = count is_iteration st + MAX_ITERS
         ∧ count is_llm_call st' = count is_llm_call st + MAX_ITERS)
    ∧ (∀ e, r = Exc e → ∃ s, _prompt_template q (history_str repr ch) s = Exc e)
    ∧ (∀ k es st_k e,
         k < MAX_ITERS →
         completed q ch tools k 0 st es st_k →
         _prompt_template q (history_str repr ch) (render es) = Exc e →
         r = Exc e ∧ count is_llm_call st' = count is_llm_call st + k).
Proof.
  rewrite run_finish.
  destruct (passes q ch tools MAX_ITERS 0 "" st) as [r0 st'] eqn:Hloop.
  destruct (for_range_counts _ _ _ _ _ _ _ _ _ Hloop) as (Hi & Hl & Ht & Hn & He).
  exists (fst (finish (r0, st'))), st'. split.
  { by destruct r0 as [[s|v]|e]. }
  do 3 (split; [done|]). split; [|split; [|split]].
  - intros Hfmt. destruct r0 as [[s|v]|e]; simpl; eauto.
    destruct (He e eq_refl) as [s Hs]. destruct (Hfmt s) as [p Hp]. congruence.
  - intros es st10 Hrec. pose proof (recorded_for_range _ _ _ _ _ _ _ _ _ Hrec) as Hloop'.
    rewrite Hloop in Hloop'. injection Hloop' as -> ->. simpl.
    destruct (Hn _ eq_refl). done.
  - intros e Hr. destruct r0 as [[s|v]|e0]; simpl in Hr; try done.
    injection Hr as ->. by apply He.
  - intros k es st_k e Hk Hrec Hp.
    destruct (completed_counts _ _ _ _ _ _ _ Hrec) as [_ Hc].
    replace MAX_ITERS with (k + (MAX_ITERS - k)) in Hloop at 1 by lia.
    rewrite for_range_split, (recorded_for_range _ _ _ _ _ _ _ _ _ Hrec) in Hloop.
    simpl in Hloop. rewrite (remaining_S _ Hk), for_range_S,
      (body_format_raises _ _ _ _ _ _ e) in Hloop by done.
    simpl in Hloop. injection Hloop as <- <-. simpl. split; [done|].
    destruct st_k as [wk lk]. rewrite (count_logged _ wk). simpl. simpl in Hc. lia.
Qed.

(** C2. If pass [k < 10] receives a decision whose tool is "Final Answer",
    the run returns that decision's [tool_input] at once: the state is the
    one in which the decision arrived, pass [k] is the last pass started,
    and the completion capability has been called exactly [k + 1] times. *)
Theorem final_answer_short_circuit q ch tools k st es st_k prompt a w :
  k < MAX_ITERS →
  completed q ch tools k 0 st es st_k →
  _prompt_template q (history_str repr ch) (render es) = Val prompt →
  _structured_llm prompt (world st_k) = (Val a, w) →
  tool a = final_answer →
  run q ch tools st = (Val (tool_input a), decided k prompt a w st_k)
  ∧ count is_llm_call (decided k prompt a w st_k) = count is_llm_call st + (k + 1)
  ∧ count is_iteration (decided k prompt a w st_k) = count is_iteration st + (k + 1)
  ∧ count is_tool_call (decided k prompt a w st_k) = count is_tool_call st_k.
Proof.
  intros Hk Hrec Hp Hl Hf.
  destruct (completed_counts _ _ _ _ _ _ _ Hrec) as [Hi Hc].
  split.
  - rewrite (run_after _ _ _ k _ _ _ (Nat.lt_le_incl _ _ Hk) Hrec), (remaining_S _ Hk),
      for_range_S, (body_final_answer _ _ _ _ _ _ prompt a w) by done.
    done.
  - rewrite !count_decided; simpl. lia.
Qed.


(** C3, as amended.  An exception raised inside the [try] block of a pass
    is caught inside the run: a failure of the decision request (or of its
    validation) at pass [k] ends the run with the engine-error text.  The
    prompt is rendered before the [try] block: an exception raised there
    escapes to the caller, and it is the only exception that can. *)
Theorem only_prompt_rendering_escapes q ch tools st r st' :
  run q ch tools st = (r, st') →
  (∀ e, r = Exc e → ∃ s, _prompt_template q (history_str repr ch) s = Exc e)
  ∧ (∀ k es st_k prompt e w,
       k < MAX_ITERS →
       completed q ch tools k 0 st es st_k →
       _prompt_template q (history_str repr ch) (render es) = Val prompt →
       _structured_llm prompt (world st_k) = (Exc e, w) →
       r = Val (VStr (engine_error e)))
  ∧ (∀ k es st_k e,
       k < MAX_ITERS →
       completed q ch tools k 0 st es st_k →
       _prompt_template q (history_str repr ch) (render es) = Exc e →
       r = Exc e).
Proof.
  intros Hrun. split; [|split].
  - intros e ->. rewrite run_finish in Hrun.
    destruct (passes q ch tools MAX_ITERS 0 "" st) as [r0 st0'] eqn:Hloop.
    destruct (for_range_counts _ _ _ _ _ _ _ _ _ Hloop) as (_ & _ & _ & _ & He).
    destruct r0 as [[s|v]|e0]; simpl in Hrun; try done.
    injection Hrun as -> ->. by apply He.
  - intros k es st_k prompt e w Hk Hrec Hp Hl.
    rewrite (run_after _ _ _ k _ _ _ (Nat.lt_le_incl _ _ Hk) Hrec), (remaining_S _ Hk),
      for_range_S, (body_llm_raises _ _ _ _ _ _ prompt e w) in Hrun by done.
    simpl in Hrun. congruence.
  - intros k es st_k e Hk Hrec Hp.
    rewrite (run_after _ _ _ k _ _ _ (Nat.lt_le_incl _ _ Hk) Hrec), (remaining_S _ Hk),
      for_range_S, (body_format_raises _ _ _ _ _ _ e) in Hrun by done.
    simpl in Hrun. congruence.
Qed.

(** C4. If pass [k < 10] receives a decision naming a tool that is neither
    a sentinel ("Final Answer", the ask-user tool) nor the name of a tool
    in the list, the pass completes: the observation it records is the
    not-found text, which contains the tool name, no tool is invoked, and
    the run goes on with the remaining passes.  The record is the step
    string from which the next prompt is rendered: it is the earlier
    string followed by the thought, the decision and the not-found text. *)
Theorem unknown_tool_is_recoverable q ch tools k st es st_k prompt a w :
  k < MAX_ITERS →
  completed q ch tools k 0 st es st_k →
  _prompt_template q (history_str repr ch) (render es) = Val prompt →
  _structured_llm prompt (world st_k) = (Val a, w) →
  tool a ≠ final_answer →
  tool a ≠ ask_user →
  tool a ∉ map name tools →
  let obs := tool_not_found (tool a) in
  let es' := (es ++ [(thought a, a, VStr obs)])%list in
  let st' := decided k prompt a w st_k in
  completed q ch tools (S k) 0 st es' st'
  ∧ run q ch tools st = finish (passes q ch tools (MAX_ITERS - S k) (S k) (render es') st')
  ∧ contains (tool a) obs
  ∧ contains "찾을 수 없습니다" obs
  ∧ count is_tool_call st' = count is_tool_call st_k
  ∧ render es' =
      render es ++ nl ++ "Thought: " ++ thought a ++ nl
      ++ "Action: " ++ model_dump_json a ++ nl ++ "Observation: " ++ obs
  ∧ contains obs (render es').
Proof.
  intros Hk Hrec Hp Hl Hf Hq Hn obs es' st'.
  apply tool_map_lookup_None in Hn.
  assert (Hrec' : completed q ch tools (S k) 0 st es' st').
  { eapply recorded_snoc; eauto. by apply observe_not_found. }
  split; [done|]. split; [by apply run_after; [lia|]|].
  split; [apply contains_middle|]. split; [|split; [|split]].
  - exists ("오류: '" ++ tool a ++ "' Tool을 "), ".". unfold obs, tool_not_found.
    by rewrite !append_assoc.
  - unfold st'. rewrite count_decided. simpl. lia.
  - apply (render_snoc_text es (thought a) a (VStr obs)).
  - apply (render_snoc_contains es (thought a) a (VStr obs)).
Qed.

(** C5. If pass [k < 10] receives a decision naming a tool of the map
    (not a sentinel) and the invocation of that tool raises, the pass
    completes: the observation it records is a text containing the
    description of the failure, and the run goes on with the remaining
    passes; the exception does not leave the pass.  The record is the step
    string from which the next prompt is rendered: it is the earlier
    string followed by the thought, the decision and the failure text. *)
Theorem tool_failure_is_isolated q ch tools k st es st_k prompt a w t e w' :
  k < MAX_ITERS →
  completed q ch tools k 0 st es st_k →
  _prompt_template q (history_str repr ch) (render es) = Val prompt →
  _structured_llm prompt (world st_k) = (Val a, w) →
  tool a ≠ final_answer →
  tool a ≠ ask_user →
  tool_map tools !! tool a = Some t →
  invoke t (tool_input a) w = (Exc e, w') →
  let obs := tool_error e in
  let es' := (es ++ [(thought a, a, VStr obs)])%list in
  let st' := mkSt w' (calls (decided k prompt a w st_k)
                        ++ [ Sidebar (SbInput (tool_input a));
                             ToolCall (name t) (tool_input a) (Exc e) ]) in
  completed q ch tools (S k) 0 st es' st'
  ∧ run q ch tools st = finish (passes q ch tools (MAX_ITERS - S k) (S k) (render es') st')
  ∧ contains e obs
  ∧ t ∈ tools
  ∧ render es' =
      render es ++ nl ++ "Thought: " ++ thought a ++ nl
      ++ "Action: " ++ model_dump_json a ++ nl ++ "Observation: " ++ obs
  ∧ contains obs (render es')
  ∧ contains e (render es').
Proof.
  intros Hk Hrec Hp Hl Hf Hq Ht Hi obs es' st'.
  assert (Hrec' : completed q ch tools (S k) 0 st es' st').
  { eapply recorded_snoc; eauto. by apply observe_raise. }
  split; [done|]. split; [by apply run_after; [lia|]|].
  split; [apply contains_suffix|].
  split; [by apply tool_map_lookup_Some in Ht as [? _]|].
  split; [apply (render_snoc_text es (thought a) a (VStr obs))|].
  split; [apply (render_snoc_contains es (thought a) a (VStr obs))|].
  destruct (render_snoc_contains es (thought a) a (VStr obs)) as (pre & post & Heq).
  exists (pre ++ "Tool 실행 중 오류 발생: "), post. fold es' in Heq. rewrite Heq.
  simpl. unfold obs, tool_error. by rewrite !append_assoc.
Qed.

(** C6, as amended.  A value returned by the run is text, except that in
    the final-answer case the run returns the [tool_input] of the last
    decision as it is, text or not. *)
Theorem returned_value_is_text_or_final_input q ch tools st v st' :
  run q ch tools st = (Val v, st') →
  is_str v = true
  ∨ ∃ a, last (decisions st') = Some a ∧ tool a = final_answer ∧ v = tool_input a.
Proof.
  rewrite run_finish.
  destruct (passes q ch tools MAX_ITERS 0 "" st) as [[[s|v0]|e] st0'] eqn:Hloop;
    simpl; intros [= <- <-].
  - by left.
  - by eapply for_range_returns.
Qed.

(** C9. After [n] passes that all completed, the step record is the
    rendering of exactly [n] entries, one per pass and in the order of the
    passes; each entry holds the thought, the decision and the observation
    of its pass, and after [m ≤ n] passes the record consisted of the
    first [m] of them.  The record is the string [intermediate_steps_str]:
    the text of entry [i], with its thought, its decision as JSON and the
    text of its observation, stands in it right after the texts of the
    entries before it and is followed by the texts of the later ones. *)
Theorem steps_grow_one_entry_per_pass q ch tools n st s st_n :
  passes q ch tools n 0 "" st = (Val (Next s), st_n) →
  ∃ es : list entry,
    length es = n
    ∧ s = render es
    ∧ completed q ch tools n 0 st es st_n
    ∧ decisions st_n = (decisions st ++ map (λ e : entry, snd (fst e)) es)%list
    ∧ Forall (λ e : entry, fst (fst e) = thought (snd (fst e))) es
    ∧ (∀ m, m ≤ n →
        ∃ st_m, passes q ch tools m 0 "" st = (Val (Next (render (take m es))), st_m))
    ∧ (∀ i th a obs, es !! i = Some (th, a, obs) →
        s = render (take i es)
            ++ (nl ++ "Thought: " ++ th ++ nl ++ "Action: " ++ model_dump_json a
                ++ nl ++ "Observation: " ++ py_str repr obs)
            ++ render (drop (S i) es))
    ∧ (∀ i th a obs, es !! i = Some (th, a, obs) →
        contains th s ∧ contains (model_dump_json a) s ∧ contains (py_str repr obs) s).
Proof.
  intros Hloop.
  destruct (for_range_recorded _ _ _ _ _ _ _ _ _ Hloop) as (es & Hrec & Hlen & Hs).
  destruct (recorded_decisions _ _ _ _ _ _ _ _ _ Hrec) as (Hd & Hth & _).
  exists es. do 5 (split; [done|]). split; [|split].
  - intros m Hm. destruct (recorded_take _ _ _ _ _ _ _ _ _ m Hrec Hm) as [st_m Hrm].
    exists st_m. by apply recorded_for_range in Hrm.
  - intros i th a obs Hi. rewrite Hs. simpl. by apply render_lookup_text.
  - intros i th a obs Hi. rewrite Hs. change ("" ++ render es) with (render es).
    rewrite (render_lookup_text es i th a obs Hi).
    split; [|split]; apply contains_app_r, contains_app_l.
    + apply contains_app_r. apply contains_middle.
    + do 4 apply contains_app_r. apply contains_middle.
    + do 7 apply contains_app_r. apply contains_suffix.
Qed.

(** *** The tools of [get_tools] *)

Section GetToolsProperties.

Variables search_tool_invoke calculator_tool_invoke wolfram_alpha_tool_invoke
  blog_template_tool_invoke ask_user_tool_invoke create_study_plan_tool_invoke
  : value → World → res value * World.

Abbreviation the_tools :=
  (get_tools search_tool_invoke calculator_tool_invoke wolfram_alpha_tool_invoke
     blog_template_tool_invoke ask_user_tool_invoke create_study_plan_tool_invoke).

Lemma get_tools_names :
  map name the_tools =
    [ "tavily_search_results_json"; "calculator_tool"; "wolfram_alpha_tool";
      "blog_template_tool"; "ask_user_tool"; "create_study_plan_tool" ].
Proof. reflexivity. Qed.

Lemma get_tools_lookup (n : string) :
  n ∈ map name the_tools →
  ∃ t, tool_map the_tools !! n = Some t ∧ name t = n.
Proof.
  rewrite get_tools_names. rewrite !elem_of_cons, elem_of_nil.
  intros [->|[->|[->|[->|[->|[->|[]]]]]]]; eexists; (split; [reflexivity|reflexivity]).
Qed.

(** C8, as amended.  The six tools returned by [get_tools] have pairwise
    distinct names.  The engine itself performs no collision check:
    building the tool map cannot fail, and of two tools with the same
    name in the list the map keeps the later one. *)
Theorem tool_names_distinct_in_get_tools_only :
  NoDup (map name the_tools)
  ∧ (∀ (l1 l2 l3 : list (Tool World)) (t1 t2 : Tool World),
       name t1 = name t2 →
       name t2 ∉ map name l3 →
       tool_map (l1 ++ t1 :: l2 ++ t2 :: l3) !! name t1 = Some t2).
Proof.
  split.
  - rewrite get_tools_names. apply (bool_decide_unpack _). by vm_compute.
  - intros l1 l2 l3 t1 t2 Hname Hlast. rewrite Hname.
    replace (l1 ++ t1 :: l2 ++ t2 :: l3)%list with ((l1 ++ t1 :: l2) ++ t2 :: l3)%list
      by (by rewrite <- app_assoc).
    by apply tool_map_last.
Qed.

(** C10. With the tools of [get_tools], a decision that validates
    against the [Action] schema and is neither the final answer nor a
    question to the user names a tool of the map: step 5 finds that
    tool and invokes it, and the not-found branch is not taken. *)
Theorem valid_decision_reaches_a_tool a st :
  Action_validates a = true →
  tool a ≠ final_answer →
  tool a ≠ ask_user →
  ∃ t, tool_map the_tools !! tool a = Some t
     ∧ t ∈ the_tools
     ∧ name t = tool a
     ∧ ∃ obs st', observe (tool_map the_tools) a st = (Val obs, st')
                  ∧ count is_tool_call st' = count is_tool_call st + 1.
Proof.
  intros Hv Hf Hq. unfold Action_validates in Hv. apply bool_decide_eq_true in Hv.
  assert (Hin : tool a ∈ map name the_tools).
  { rewrite get_tools_names. unfold Action_tool_literals in Hv.
    rewrite !elem_of_cons, elem_of_nil in Hv. rewrite !elem_of_cons.
    unfold final_answer in Hf. unfold ask_user in Hq. clear - Hv Hf Hq. tauto. }
  destruct (get_tools_lookup _ Hin) as (t & Ht & Hn).
  exists t. split; [done|]. split; [by apply tool_map_lookup_Some in Ht as [? _]|].
  split; [done|]. destruct st as [w0 l0].
  destruct (invoke t (tool_input a) w0) as [[v|e] w] eqn:Hi.
  - eexists _, _. split; [by eapply observe_ok|]. simpl.
    rewrite (count_logged _ w0). simpl. lia.
  - eexists _, _. split; [by eapply observe_raise|]. simpl.
    rewrite (count_logged _ w0). simpl. lia.
Qed.

End GetToolsProperties.

(** *** The order of the calls *)

Lemma well_dispatched_weaken known pending (log : list event) :
  well_dispatched known None log → well_dispatched known pending log.
Proof.
  destruct pending as [a0|]; [|done].
  induction log as [|[w|p [a|e]|n input r] log IH]; simpl; try done.
  intros [(a & Ha & _) _]. done.
Qed.

Lemma well_dispatched_app known pending (log1 log2 : list event) :
  well_dispatched known pending log1 →
  well_dispatched known None log2 →
  well_dispatched known pending (log1 ++ log2).
Proof.
  revert pending.
  induction log1 as [|[w|p [a|e]|n input r] log1 IH]; intros pending; simpl.
  - intros _ H. by apply well_dispatched_weaken.
  - apply IH.
  - apply IH.
  - apply IH.
  - intros [Hc H1] H2. split; [done|]. by apply IH.
Qed.

Lemma well_dispatched_impl (P Q : string → Prop) pending (log : list event) :
  (∀ n, P n → Q n) →
  well_dispatched P pending log → well_dispatched Q pending log.
Proof.
  intros HPQ. revert pending.
  induction log as [|[w|p [a|e]|n input r] log IH]; intros pending; simpl; try done;
    try apply IH.
  intros [(a & Ha & Hn & Hi & Hf & Hq & Hk) H]. split; [|by apply IH].
  exists a. repeat split; try done. by apply HPQ.
Qed.

Lemma well_dispatched_tool_call known pending (log : list event) n input r :
  well_dispatched known pending log →
  ToolCall n input r ∈ log →
  n ≠ final_answer ∧ n ≠ ask_user ∧ known n.
Proof.
  revert pending.
  induction log as [|ev log IH]; intros pending Hw Hin.
  - by apply elem_of_nil in Hin.
  - apply elem_of_cons in Hin as [<-|Hin].
    + simpl in Hw. destruct Hw as [(a & _ & -> & _ & Hf & Hq & Hk) _]. done.
    + destruct ev as [w|p [a|e]|n' input' r']; simpl in Hw; try (by eapply IH).
      destruct Hw as [_ Hw]. by eapply IH.
Qed.

Section Dispatch.

Variables user_query hist : string.
Variable tm : gmap string (Tool World).

(** The map is keyed by the names of its tools. *)
Hypothesis tm_keyed : ∀ n (t : Tool World), tm !! n = Some t → name t = n.

Abbreviation in_map := (λ n : string, is_Some (tm !! n)).

Lemma observe_log a st obs st' :
  tool a ≠ final_answer →
  tool a ≠ ask_user →
  observe tm a st = (Val obs, st') →
  ∃ new, calls st' = (calls st ++ new)%list
         ∧ well_dispatched in_map (Some a) new
         ∧ count_events is_tool_call new ≤ 1
         ∧ count_events is_llm_call new = 0.
Proof.
  intros Hf Hq Ho.
  destruct (tm !! tool a) as [t|] eqn:Ht.
  - assert (Hk : in_map (name t)) by (rewrite (tm_keyed _ _ Ht); by rewrite Ht).
    destruct (invoke t (tool_input a) (world st)) as [[v|e] w] eqn:Hi.
    + rewrite (observe_ok _ _ _ _ _ _ Ht Hi) in Ho. injection Ho as <- <-.
      eexists. split; [reflexivity|]. simpl. split; [|lia].
      split; [|done]. exists a. by rewrite (tm_keyed _ _ Ht).
    + rewrite (observe_raise _ _ _ _ _ _ Ht Hi) in Ho. injection Ho as <- <-.
      eexists. split; [reflexivity|]. simpl. split; [|lia].
      split; [|done]. exists a. by rewrite (tm_keyed _ _ Ht).
  - rewrite (observe_not_found _ _ _ Ht) in Ho. injection Ho as <- <-.
    exists []. rewrite app_nil_r. simpl. repeat split; lia.
Qed.

Lemma body_log i steps st r st' :
  loop_body repr model_dump_json _structured_llm _prompt_template
    user_query hist tm i steps st = (r, st') →
  ∃ new, calls st' = (calls st ++ new)%list
         ∧ well_dispatched in_map None new
         ∧ count_events is_tool_call new ≤ count_events is_llm_call new.
Proof.
  intros Hb.
  destruct (body_cases user_query hist tm i steps st)
    as [(e & Hp & He)
       |[(prompt & e & w & Hp & Hl & He)
        |(prompt & a & w & Hp & Hl &
            [[Hf He]|[[Hq He]|(Hf & Hq & obs & st1 & Ho & He)]])]];
    rewrite He in Hb; injection Hb as <- <-.
  - eexists. split; [reflexivity|]. simpl. split; [done|lia].
  - eexists. split; [reflexivity|]. simpl. split; [done|lia].
  - eexists. split; [reflexivity|]. simpl. split; [done|lia].
  - eexists. split; [reflexivity|]. simpl. split; [done|lia].
  - destruct (observe_log _ _ _ _ Hf Hq Ho) as (new & Hc & Hw & Ht & Hl0).
    eexists. split.
    + rewrite Hc. simpl. rewrite <- app_assoc. reflexivity.
    + simpl. split; [done|lia].
Qed.

Lemma for_range_log n i steps st r st' :
  for_range repr model_dump_json _structured_llm _prompt_template
    user_query hist tm n i steps st = (r, st') →
  ∃ new, calls st' = (calls st ++ new)%list
         ∧ well_dispatched in_map None new
         ∧ count_events is_tool_call new ≤ count_events is_llm_call new.
Proof.
  revert i steps st. induction n as [|n IH]; intros i steps st.
  - simpl. unfold ret. intros [= <- <-]. exists []. rewrite app_nil_r. simpl.
    repeat split; lia.
  - rewrite for_range_S.
    destruct (loop_body repr model_dump_json _structured_llm _prompt_template
                user_query hist tm i steps st) as [r1 st1] eqn:Hb.
    destruct (body_log _ _ _ _ _ Hb) as (new1 & Hc1 & Hw1 & Hn1).
    destruct r1 as [[s|v]|e]; simpl.
    + intros Hr. destruct (IH _ _ _ Hr) as (new2 & Hc2 & Hw2 & Hn2).
      exists (new1 ++ new2)%list. split; [by rewrite Hc2, Hc1, app_assoc|].
      split; [by apply well_dispatched_app|]. rewrite !count_events_app. lia.
    + intros [= <- <-]. by exists new1.
    + intros [= <- <-]. by exists new1.
Qed.

End Dispatch.

Lemma run_log q ch tools st r st' :
  run q ch tools st = (r, st') →
  ∃ new, calls st' = (calls st ++ new)%list
         ∧ well_dispatched (λ n, n ∈ map name tools) None new
         ∧ count_events is_tool_call new ≤ count_events is_llm_call new.
Proof.
  rewrite run_finish.
  destruct (passes q ch tools MAX_ITERS 0 "" st) as [r0 st0'] eqn:Hloop.
  intros Hfin.
  assert (st0' = st') as <- by (by destruct r0 as [[s|v]|e]; injection Hfin).
  destruct (for_range_log _ _ (tool_map tools)
              (λ n t H, proj2 (tool_map_lookup_Some tools n t H)) _ _ _ _ _ _ Hloop)
    as (new & Hc & Hw & Hn).
  exists new. split; [done|]. split; [|done].
  eapply well_dispatched_impl; [|exact Hw]. simpl.
  intros n [t Ht]. destruct (tool_map_lookup_Some _ _ _ Ht) as [Hin <-].
  by apply list_elem_of_fmap_2.
Qed.

(** X1. In the calls that a run adds to the log, every tool invocation
    follows a decision that names the invoked tool and carries the input
    passed to it, and no decision is followed by two invocations. *)
Theorem tool_calls_follow_decisions q ch tools st r st' :
  run q ch tools st = (r, st') →
  ∃ new, calls st' = (calls st ++ new)%list
         ∧ well_dispatched (λ n, n ∈ map name tools) None new.
Proof.
  intros Hrun. destruct (run_log _ _ _ _ _ _ Hrun) as (new & Hc & Hw & _). eauto.
Qed.

(** X2. A run never invokes a tool under the name "Final Answer" or
    "ask_user_tool", not even when such a tool is in the list, and it
    invokes only tools of the list. *)
Theorem sentinels_are_never_invoked q ch tools st r st' :
  run q ch tools st = (r, st') →
  ∃ new, calls st' = (calls st ++ new)%list
         ∧ ∀ n input out, ToolCall n input out ∈ new →
             n ≠ final_answer ∧ n ≠ ask_user ∧ n ∈ map name tools.
Proof.
  intros Hrun. destruct (run_log _ _ _ _ _ _ Hrun) as (new & Hc & Hw & _).
  exists new. split; [done|]. intros n input out Hin.
  exact (well_dispatched_tool_call _ _ _ _ _ _ Hw Hin).
Qed.

(** X3. A run never invokes more tools than it has requested decisions. *)
Theorem no_more_tool_calls_than_decisions q ch tools st r st' :
  run q ch tools st = (r, st') →
  count is_tool_call st' + count is_llm_call st
    ≤ count is_tool_call st + count is_llm_call st'.
Proof.
  intros Hrun. destruct (run_log _ _ _ _ _ _ Hrun) as (new & Hc & _ & Hn).
  unfold count. rewrite Hc, !count_events_app. lia.
Qed.

(** *** Passes not covered above *)

(** X4. A decision request that fails at pass [k < 10] is not repeated: the
    run ends in the state in which the request failed, with the engine-error
    text quoting the failure, after [k + 1] requests and without a further
    tool invocation. *)
Theorem engine_error_ends_the_run q ch tools k st es st_k prompt e w :
  k < MAX_ITERS →
  completed q ch tools k 0 st es st_k →
  _prompt_template q (history_str repr ch) (render es) = Val prompt →
  _structured_llm prompt (world st_k) = (Exc e, w) →
  let st' := mkSt w (calls st_k ++ [ Sidebar (SbIteration (k + 1));
                                     LlmCall prompt (Exc e) ]) in
  run q ch tools st = (Val (VStr (engine_error e)), st')
  ∧ contains e (engine_error e)
  ∧ count is_llm_call st' = count is_llm_call st + (k + 1)
  ∧ count is_tool_call st' = count is_tool_call st_k.
Proof.
  intros Hk Hrec Hp Hl st'.
  destruct (completed_counts _ _ _ _ _ _ _ Hrec) as [Hi Hc].
  split; [|split; [apply contains_suffix|]].
  - rewrite (run_after _ _ _ k _ _ _ (Nat.lt_le_incl _ _ Hk) Hrec), (remaining_S _ Hk),
      for_range_S, (body_llm_raises _ _ _ _ _ _ prompt e w) by done.
    done.
  - unfold st'. destruct st_k as [wk lk]. rewrite !(count_logged _ wk). simpl. lia.
Qed.

(** X5. If pass [k < 10] receives a decision naming a tool of the map and
    the tool returns [v], the tool is invoked once with the decision's
    [tool_input], [v] is recorded as the observation, its text is part of
    the steps from which the next prompt is rendered, and the run goes on
    with the remaining passes. *)
Theorem tool_result_is_recorded q ch tools k st es st_k prompt a w t v w' :
  k < MAX_ITERS →
  completed q ch tools k 0 st es st_k →
  _prompt_template q (history_str repr ch) (render es) = Val prompt →
  _structured_llm prompt (world st_k) = (Val a, w) →
  tool a ≠ final_answer →
  tool a ≠ ask_user →
  tool_map tools !! tool a = Some t →
  invoke t (tool_input a) w = (Val v, w') →
  let es' := (es ++ [(thought a, a, v)])%list in
  let st' := mkSt w' (calls (decided k prompt a w st_k)
                        ++ [ Sidebar (SbInput (tool_input a));
                             ToolCall (name t) (tool_input a) (Val v);
                             Sidebar (SbObservation v) ]) in
  completed q ch tools (S k) 0 st es' st'
  ∧ run q ch tools st = finish (passes q ch tools (MAX_ITERS - S k) (S k) (render es') st')
  ∧ contains (py_str repr v) (render es')
  ∧ name t = tool a
  ∧ count is_tool_call st' = count is_tool_call st_k + 1.
Proof.
  intros Hk Hrec Hp Hl Hf Hq Ht Hi es' st'.
  assert (Hrec' : completed q ch tools (S k) 0 st es' st').
  { eapply recorded_snoc; eauto. by apply observe_ok. }
  split; [done|]. split; [by apply run_after; [lia|]|]. split; [|split].
  - unfold es'. rewrite render_trace_snoc. unfold render_entry, step_record. simpl.
    eexists _, "". rewrite append_nil_r, <- !append_assoc. reflexivity.
  - by apply tool_map_lookup_Some in Ht as [_ ?].
  - unfold st'. simpl. destruct st_k as [wk lk]. simpl.
    rewrite <- app_assoc, (count_logged _ wk). simpl. lia.
Qed.

(** *** Looking tools up *)

(** X6. When the names in the tool list are pairwise distinct, every tool
    of the list is found in the tool map under its own name. *)
Theorem distinct_names_resolve (tools : list (Tool World)) (t : Tool World) :
  NoDup (map name tools) →
  t ∈ tools →
  tool_map tools !! name t = Some t.
Proof.
  intros Hnd Hin. apply list_elem_of_split in Hin as (l1 & l2 & ->).
  apply tool_map_last. rewrite map_app in Hnd. simpl in Hnd.
  apply NoDup_app in Hnd as (_ & _ & Hnd). by apply NoDup_cons in Hnd as [? _].
Qed.

(** X7. The keys of the tool map are exactly the names that occur in the
    tool list, and the map never has more entries than the list has
    tools. *)
Theorem tool_map_keys (tools : list (Tool World)) :
  (∀ n, is_Some (tool_map tools !! n) ↔ n ∈ map name tools)
  ∧ size (tool_map tools) ≤ length tools.
Proof.
  clear repr model_dump_json _structured_llm _prompt_template.
  split.
  - intros n. rewrite <- not_eq_None_Some, tool_map_lookup_None.
    destruct (decide (n ∈ map name tools)); tauto.
  - induction tools as [|t tools IH] using rev_ind; [done|].
    rewrite tool_map_snoc, length_app, map_size_insert. simpl.
    destruct (tool_map tools !! name t); unfold id; lia.
Qed.

(** *** The history string *)

Lemma concat_snoc (sep : string) (l : list string) (x : string) :
  l ≠ [] →
  String.concat sep (l ++ [x]) = String.concat sep l ++ sep ++ x.
Proof.
  induction l as [|y l IH]; [done|]. intros _.
  destruct l as [|z l]; [done|].
  change (String.concat sep ((y :: z :: l) ++ [x]))
    with (y ++ sep ++ String.concat sep ((z :: l) ++ [x])).
  rewrite IH by done.
  change (String.concat sep (y :: z :: l)) with (y ++ sep ++ String.concat sep (z :: l)).
  by rewrite !append_assoc.
Qed.

Lemma history_str_lines ch : history_str repr ch = String.concat nl (map (history_line repr) ch).
Proof. reflexivity. Qed.

Lemma history_contains ch (h : value * value) :
  h ∈ ch →
  contains (py_str repr (fst h)) (history_str repr ch)
  ∧ contains (py_str repr (snd h)) (history_str repr ch).
Proof.
  rewrite history_str_lines.
  assert (Hline : ∀ h0, contains (py_str repr (fst h0)) ((history_line repr) h0)
                        ∧ contains (py_str repr (snd h0)) ((history_line repr) h0)).
  { intros h0. split.
    - apply contains_middle.
    - unfold history_line. do 3 apply contains_app_r. apply contains_suffix. }
  induction ch as [|h1 ch IH]; intros Hin; [by apply elem_of_nil in Hin|].
  destruct ch as [|h2 ch].
  - apply list_elem_of_singleton in Hin as ->. apply Hline.
  - change (String.concat nl (map (history_line repr) (h1 :: h2 :: ch)))
      with ((history_line repr) h1 ++ nl ++ String.concat nl (map (history_line repr) (h2 :: ch))).
    apply elem_of_cons in Hin as [->|Hin].
    + split; apply contains_app_l; apply Hline.
    + destruct (IH Hin). split; by do 2 apply contains_app_r.
Qed.

(** X8. The history string grows by one block per turn: the block of a new
    turn is appended after a newline, and the first block stands alone. *)
Theorem history_str_snoc ch u r :
  history_str repr (ch ++ [(u, r)]) =
    match ch with
    | [] => "Human: " ++ py_str repr u ++ nl ++ "Assistant: " ++ py_str repr r
    | _ :: _ =>
        history_str repr ch ++ nl
        ++ "Human: " ++ py_str repr u ++ nl ++ "Assistant: " ++ py_str repr r
    end.
Proof.
  destruct ch as [|h ch]; [done|].
  rewrite !history_str_lines, map_app. simpl map. by rewrite concat_snoc.
Qed.

(** X9. The history string shows the user text and the agent text of every
    turn of the chat history. *)
Theorem history_str_mentions_every_turn ch u r :
  (u, r) ∈ ch →
  contains (py_str repr u) (history_str repr ch)
  ∧ contains (py_str repr r) (history_str repr ch).
Proof. apply (history_contains ch (u, r)). Qed.

(** *** The chat page *)

Abbreviation turn := (chat_turn repr model_dump_json _structured_llm _prompt_template).

Lemma length_messages_of (history : list (value * value)) :
  length (messages_of history) = 2 * length history.
Proof. induction history as [|h history IH]; simpl; [done|]. rewrite IH. lia. Qed.

Lemma messages_of_snoc (history : list (value * value)) (h : value * value) :
  messages_of (history ++ [h])
    = (messages_of history ++ [("user", fst h); ("assistant", snd h)])%list.
Proof. unfold messages_of. by rewrite flat_map_app. Qed.

Lemma run_raises_from_template q ch tools st e st' :
  run q ch tools st = (Exc e, st') →
  ∃ steps, _prompt_template q (history_str repr ch) steps = Exc e.
Proof.
  rewrite run_finish.
  destruct (passes q ch tools MAX_ITERS 0 "" st) as [r0 st0'] eqn:Hloop.
  destruct (for_range_counts _ _ _ _ _ _ _ _ _ Hloop) as (_ & _ & _ & _ & He).
  destruct r0 as [[s|v]|e0]; simpl; intros [= <- <-]. by apply He.
Qed.

(** X10. A turn that ends normally stores the prompt and the response of
    the engine as one more pair of the chat history and as two more
    messages; messages that matched the chat history before the turn match
    it afterwards. *)
Theorem chat_turn_records_the_exchange tools prompt (s : Session) st s' st' :
  turn tools prompt s st = (Val tt, s', st') →
  ∃ response,
    run prompt (chat_history s) tools st = (Val response, st')
    ∧ chat_history s' = (chat_history s ++ [(VStr prompt, response)])%list
    ∧ messages s' = (messages s ++ [("user", VStr prompt); ("assistant", response)])%list
    ∧ (messages s = messages_of (chat_history s) →
       messages s' = messages_of (chat_history s')).
Proof.
  unfold chat_turn. simpl.
  destruct (run prompt (chat_history s) tools st) as [[response|e] st1] eqn:Hrun;
    intros [= <- <-].
  exists response. simpl. split; [done|]. split; [done|].
  split; [by rewrite <- app_assoc|].
  intros ->. by rewrite messages_of_snoc, <- app_assoc.
Qed.

(** X11. A turn in which the engine raises leaves the chat history as it
    was but has already stored the user message, so that the messages no
    longer match the chat history; the exception is one raised by the
    prompt template. *)
Theorem chat_turn_failure_leaves_a_dangling_message tools prompt (s : Session)
    st e s' st' :
  turn tools prompt s st = (Exc e, s', st') →
  chat_history s' = chat_history s
  ∧ messages s' = (messages s ++ [("user", VStr prompt)])%list
  ∧ (∃ steps, _prompt_template prompt (history_str repr (chat_history s)) steps = Exc e)
  ∧ (messages s = messages_of (chat_history s) →
     messages s' ≠ messages_of (chat_history s')).
Proof.
  unfold chat_turn. simpl.
  destruct (run prompt (chat_history s) tools st) as [[response|e0] st1] eqn:Hrun;
    intros [= <- <- <-]. simpl.
  split; [done|]. split; [done|]. split; [by eapply run_raises_from_template|].
  intros Hal Heq. apply (f_equal length) in Heq.
  rewrite length_app, Hal, !length_messages_of in Heq. simpl in Heq. lia.
Qed.

(** X12. After a turn that ends normally, the history string that the next
    run of the engine renders shows the prompt and the response of this
    turn, and still shows every earlier turn. *)
Theorem next_turn_sees_the_exchange tools prompt (s : Session) st s' st' :
  turn tools prompt s st = (Val tt, s', st') →
  ∃ response,
    last (chat_history s') = Some (VStr prompt, response)
    ∧ contains prompt (history_str repr (chat_history s'))
    ∧ contains (py_str repr response) (history_str repr (chat_history s'))
    ∧ ∀ u r, (u, r) ∈ chat_history s →
        contains (py_str repr u) (history_str repr (chat_history s'))
        ∧ contains (py_str repr r) (history_str repr (chat_history s')).
Proof.
  unfold chat_turn. simpl.
  destruct (run prompt (chat_history s) tools st) as [[response|e] st1] eqn:Hrun;
    intros [= <- <-].
  exists response. simpl. split; [by rewrite last_snoc|].
  assert (Hnew : (VStr prompt, response) ∈ (chat_history s ++ [(VStr prompt, response)])%list).
  { apply elem_of_app. right. apply list_elem_of_here. }
  destruct (history_contains _ _ Hnew) as [Hu Hr]. split; [exact Hu|]. split; [exact Hr|].
  intros u r Hin. apply (history_contains _ (u, r)). apply elem_of_app. by left.
Qed.

End Properties.

(** ** Properties of the schema text and of the tool bodies *)

Section ToolProperties.

Local Open Scope nat_scope.

(** *** Doubling the braces of the schema *)

Lemma action_schema_cons (c : ascii) (s : string) :
  action_schema (String c s) =
    (if Ascii.eqb c "{" then "{{"
     else if Ascii.eqb c "}" then "}}"
     else String c "") ++ action_schema s.
Proof.
  unfold action_schema. simpl.
  destruct (Ascii.eqb c "{") eqn:Ho.
  - apply Ascii.eqb_eq in Ho as ->. reflexivity.
  - simpl. by destruct (Ascii.eqb c "}").
Qed.

(** X13. The format string reads the schema text back: with its braces
    doubled, the schema holds no replacement field and no stray brace, and
    stands for the schema as it was. *)
Theorem action_schema_reads_back (schema_json : string) :
  format_literal (action_schema schema_json) = Some schema_json.
Proof.
  induction schema_json as [|c s IH]; [done|].
  rewrite action_schema_cons.
  destruct (Ascii.eqb c "{") eqn:Ho.
  { apply Ascii.eqb_eq in Ho as ->.
    change ("{{" ++ action_schema s) with (String "{" (String "{" (action_schema s))).
    simpl. by rewrite IH. }
  destruct (Ascii.eqb c "}") eqn:Hc.
  { apply Ascii.eqb_eq in Hc as ->.
    change ("}}" ++ action_schema s) with (String "}" (String "}" (action_schema s))).
    simpl. by rewrite IH. }
  change (String c "" ++ action_schema s) with (String c (action_schema s)).
  simpl. by rewrite Ho, Hc, IH.
Qed.

(** X14. Doubling the braces works piece by piece: the text made for two
    pieces put together is the two texts put together. *)
Theorem action_schema_app (s1 s2 : string) :
  action_schema (s1 ++ s2) = action_schema s1 ++ action_schema s2.
Proof.
  induction s1 as [|c s1 IH]; [done|].
  change (String c s1 ++ s2) with (String c (s1 ++ s2)).
  rewrite !action_schema_cons, IH.
  destruct (Ascii.eqb c "{"); [reflexivity|]. by destruct (Ascii.eqb c "}").
Qed.

(** *** The substring test *)

Lemma prefix_spec (needle hay : string) :
  String.prefix needle hay = true ↔ ∃ post, hay = needle ++ post.
Proof.
  revert hay. induction needle as [|c needle IH]; intros hay.
  - split; [by exists hay|by destruct hay].
  - destruct hay as [|d hay]; simpl.
    + split; [done|]. by intros [post Hp].
    + destruct (ascii_dec c d) as [<-|Hne].
      * rewrite IH. split; intros [post Hp]; exists post.
        -- by rewrite Hp.
        -- by injection Hp.
      * split; [done|]. intros [post Hp]. by injection Hp as <- _.
Qed.

Lemma substring_in_spec (needle hay : string) :
  substring_in needle hay = true ↔ contains needle hay.
Proof.
  induction hay as [|d hay IH].
  - cbn [substring_in]. rewrite orb_false_r, prefix_spec. split.
    + intros [post Hp]. by exists "", post.
    + intros (pre & post & Hp). destruct pre; [by exists post|discriminate Hp].
  - cbn [substring_in]. rewrite orb_true_iff, prefix_spec, IH. split.
    + intros [[post Hp]|(pre & post & Hp)].
      * by exists "", post.
      * exists (String d pre), post. by rewrite Hp.
    + intros (pre & post & Hp). destruct pre as [|c pre].
      * left. by exists post.
      * right. exists pre, post. by injection Hp.
Qed.

Lemma substring_in_false (needle hay : string) :
  substring_in needle hay = false ↔ ¬ contains needle hay.
Proof. rewrite <- substring_in_spec. by destruct (substring_in needle hay). Qed.

(** *** [blog_template_tool] *)

(** X15. [blog_template_tool] answers with its error text exactly for the
    styles other than the two it supports; it never fails. *)
Theorem blog_template_error_iff (style : string) :
  blog_template_tool_func style = blog_template_unsupported
  ↔ style ≠ "기술 분석" ∧ style ≠ "제품 리뷰".
Proof.
  unfold blog_template_tool_func.
  destruct (String.eqb_spec style "기술 분석") as [->|H1].
  { split; [discriminate|]. by intros [? _]. }
  destruct (String.eqb_spec style "제품 리뷰") as [->|H2].
  { split; [discriminate|]. by intros [_ ?]. }
  done.
Qed.

(** *** [create_study_plan_tool] *)

Section StudyPlanProperties.

Variable lower : string → string.

(** X16. [create_study_plan_tool] returns [None], not a text, exactly when
    the lowercased user information mentions none of its three keywords. *)
Theorem study_plan_none_iff (user_info : string) :
  create_study_plan_tool_func lower user_info = VNone
  ↔ ¬ contains "수능" (lower user_info)
    ∧ ¬ contains "수학" (lower user_info)
    ∧ ¬ contains "블로그" (lower user_info).
Proof.
  unfold create_study_plan_tool_func.
  rewrite <- !substring_in_false.
  destruct (substring_in "수능" (lower user_info)),
           (substring_in "수학" (lower user_info)),
           (substring_in "블로그" (lower user_info)); simpl;
    split; try discriminate; try done; intros (? & ? & ?); discriminate.
Qed.

Lemma concat_contains (sep needle x : string) (l : list string) :
  x ∈ l → contains needle x → contains needle (String.concat sep l).
Proof.
  intros Hin Hx. induction l as [|y l IH]; [by apply elem_of_nil in Hin|].
  destruct l as [|z l].
  - by apply list_elem_of_singleton in Hin as ->.
  - change (String.concat sep (y :: z :: l)) with (y ++ sep ++ String.concat sep (z :: l)).
    apply elem_of_cons in Hin as [->|Hin].
    + by apply contains_app_l.
    + do 2 apply contains_app_r. by apply IH.
Qed.

Lemma exam_plan_quotes (user_info : string) : contains user_info (exam_plan user_info).
Proof.
  unfold exam_plan. eapply concat_contains; [|apply contains_suffix].
  do 3 apply list_elem_of_further. apply list_elem_of_here.
Qed.

Lemma blog_plan_quotes (user_info : string) : contains user_info (blog_plan user_info).
Proof.
  unfold blog_plan. eapply concat_contains; [|apply contains_suffix].
  do 3 apply list_elem_of_further. apply list_elem_of_here.
Qed.

(** X17. A plan that [create_study_plan_tool] returns quotes the user
    information as given, not lowercased; the exam keywords take
    precedence over the blog keyword. *)
Theorem study_plan_quotes_user_info (user_info plan : string) :
  create_study_plan_tool_func lower user_info = VStr plan →
  contains user_info plan
  ∧ (contains "수능" (lower user_info) ∨ contains "수학" (lower user_info) →
     plan = exam_plan user_info)
  ∧ (¬ contains "수능" (lower user_info) → ¬ contains "수학" (lower user_info) →
     plan = blog_plan user_info ∧ contains "블로그" (lower user_info)).
Proof.
  unfold create_study_plan_tool_func.
  destruct (substring_in "수능" (lower user_info)
            || substring_in "수학" (lower user_info)) eqn:Hexam.
  - intros [= <-]. apply orb_true_iff in Hexam.
    rewrite !substring_in_spec in Hexam.
    split; [apply exam_plan_quotes|]. split; [done|]. tauto.
  - apply orb_false_iff in Hexam as [H1 H2].
    apply substring_in_false in H1, H2.
    destruct (substring_in "블로그" (lower user_info)) eqn:H3; [|discriminate].
    apply substring_in_spec in H3. intros [= <-].
    split; [apply blog_plan_quotes|]. split; [tauto|done].
Qed.

End StudyPlanProperties.

End ToolProperties.

(** ** Scenarios

    The engine run with test doubles: the properties above at concrete
    inputs, and the inputs at which two statements of the specification
    fail. *)

Section Scenarios.

Local Open Scope nat_scope.

Ltac pass_completes :=
  eapply recorded_pass;
    [ reflexivity | reflexivity | discriminate | discriminate
    | vm_compute; reflexivity | ].

(** Budget exhaustion: with a completion capability that always asks for
    a calculation, the run returns the max-iterations message after
    exactly ten completion requests. *)
Lemma budget_exhaustion :
  ∃ st', run_mock never_done plain_template "1+1?" [calculator_returning "2"]
           = (Val (VStr max_iterations_message), st')
         ∧ count is_llm_call st' = 10
         ∧ count is_iteration st' = 10.
Proof.
  destruct (run_terminates_within_budget plain_repr plain_dump (scripted never_done)
              plain_template "1+1?" [] [calculator_returning "2"] st0)
    as (r & st' & Hrun & _ & _ & _ & _ & Hmax & _).
  assert (∃ es st10, mock_completed never_done "1+1?" [calculator_returning "2"] 10 es st10)
    as (es & st10 & Hrec).
  { eexists _, _. unfold mock_completed. do 10 pass_completes. apply recorded_done. }
  destruct (Hmax es st10 Hrec) as (-> & _ & Hi & Hl).
  exists st'. unfold run_mock. rewrite Hrun. split; [done|]. split; [exact Hl|exact Hi].
Defined.

(** A template that cannot render the second prompt: the run ends with the
    exception after one completion request and returns no value. *)
Lemma run_without_a_value :
  fst (run_mock never_done first_pass_template "1+1?" [calculator_returning "2"])
    = Exc "KeyError: 'steps'"
  ∧ count is_llm_call
      (snd (run_mock never_done first_pass_template "1+1?" [calculator_returning "2"])) = 1
  ∧ ¬ ∃ v st', run_mock never_done first_pass_template "1+1?"
                 [calculator_returning "2"] = (Val v, st').
Proof.
  split; [by vm_compute|]. split; [by vm_compute|].
  intros (v & st' & H). vm_compute in H. discriminate.
Qed.

(** The example of the specification: one calculation, then the final
    answer, returned after exactly two completion requests. *)
Lemma example_two_plus_two :
  ∃ st', run_mock two_plus_two plain_template "2+2가 뭐야?" [calculator_returning "4"]
           = (Val (VStr "2+2는 4입니다."), st')
         ∧ count is_llm_call st' = 2
         ∧ count is_iteration st' = 2
         ∧ count is_tool_call st' = 1.
Proof.
  eassert (Hw : _ ∧ _ ∧ _ ∧ _).
  { eapply (final_answer_short_circuit plain_repr plain_dump (scripted two_plus_two)
              plain_template "2+2가 뭐야?" [] [calculator_returning "4"] 1 st0);
      [ unfold MAX_ITERS; lia
      | pass_completes; apply recorded_done
      | reflexivity | reflexivity | reflexivity ]. }
  destruct Hw as (Hrun & Hl & Hi & Ht).
  eexists. split; [exact Hrun|]. split; [exact Hl|]. split; [exact Hi|exact Ht].
Defined.

(** A prompt template whose [format] raises: the exception leaves the
    run, although the specification states that none ever does. *)
Lemma prompt_rendering_error_escapes :
  run_mock two_plus_two broken_template "2+2가 뭐야?" [calculator_returning "4"]
    = (Exc "KeyError: 'input'", mkSt 0 [Sidebar (SbIteration 1)])
  ∧ ¬ ∃ v st', run_mock two_plus_two broken_template "2+2가 뭐야?"
                 [calculator_returning "4"] = (Val v, st').
Proof.
  split; [by vm_compute|]. intros (v & st' & H). vm_compute in H. discriminate.
Qed.

(** A completion request that fails validation ends the run with the
    engine-error text. *)
Lemma completion_error_is_caught :
  fst (run_mock [Exc "ValidationError: tool"] plain_template "2+2가 뭐야?" [])
    = Val (VStr (engine_error "ValidationError: tool")).
Proof.
  destruct (run_mock [Exc "ValidationError: tool"] plain_template "2+2가 뭐야?" [])
    as [r st'] eqn:Hrun.
  destruct (only_prompt_rendering_escapes plain_repr plain_dump
              (scripted [Exc "ValidationError: tool"]) plain_template
              "2+2가 뭐야?" [] [] st0 r st' Hrun) as (_ & Hcaught & _).
  simpl. eapply (Hcaught 0);
    [ unfold MAX_ITERS; lia | apply recorded_done | reflexivity | reflexivity ].
Defined.

(** A decision for a tool that is not registered: the pass completes with
    the not-found observation and without a tool invocation. *)
Lemma unknown_tool_scenario :
  ∃ st', mock_completed [Val (translate "hello")] "번역해줘" [calculator_returning "4"] 1
           [(thought (translate "hello"), translate "hello",
             VStr (tool_not_found "translator_tool"))] st'
         ∧ contains "translator_tool" (tool_not_found "translator_tool")
         ∧ count is_tool_call st' = 0
         ∧ contains (tool_not_found "translator_tool")
             (render_trace plain_repr plain_dump
                [(thought (translate "hello"), translate "hello",
                  VStr (tool_not_found "translator_tool"))]).
Proof.
  eassert (Hw : _ ∧ _ ∧ _ ∧ _ ∧ _ ∧ _ ∧ _).
  { eapply (unknown_tool_is_recoverable plain_repr plain_dump
              (scripted [Val (translate "hello")]) plain_template
              "번역해줘" [] [calculator_returning "4"] 0 st0);
      [ unfold MAX_ITERS; lia | apply recorded_done | reflexivity | reflexivity
      | discriminate | discriminate
      | apply (bool_decide_unpack _); vm_compute; reflexivity ]. }
  destruct Hw as (Hrec & _ & Hname & _ & Ht & _ & Hin).
  eexists. split; [exact Hrec|]. split; [exact Hname|]. split; [exact Ht|exact Hin].
Defined.

(** A registered tool that raises: the pass completes with an observation
    that quotes the failure. *)
Lemma failing_tool_scenario :
  ∃ st', mock_completed [Val (calculate "1/0")] "1/0?"
           [calculator_raising "division by zero"] 1
           [(thought (calculate "1/0"), calculate "1/0",
             VStr (tool_error "division by zero"))] st'
         ∧ contains "division by zero" (tool_error "division by zero")
         ∧ contains "division by zero"
             (render_trace plain_repr plain_dump
                [(thought (calculate "1/0"), calculate "1/0",
                  VStr (tool_error "division by zero"))]).
Proof.
  eassert (Hw : _ ∧ _ ∧ _ ∧ _ ∧ _ ∧ _ ∧ _).
  { eapply (tool_failure_is_isolated plain_repr plain_dump
              (scripted [Val (calculate "1/0")]) plain_template
              "1/0?" [] [calculator_raising "division by zero"] 0 st0);
      [ unfold MAX_ITERS; lia | apply recorded_done | reflexivity | reflexivity
      | discriminate | discriminate | vm_compute; reflexivity | reflexivity ]. }
  destruct Hw as (Hrec & _ & He & _ & _ & _ & Hin).
  eexists. split; [exact Hrec|]. split; [exact He|exact Hin].
Defined.

(** A final answer whose [tool_input] is a JSON object: the run returns
    the object, not a text. *)
Lemma structured_final_answer_is_not_text :
  fst (run_mock [Val (answer structured_answer)] plain_template "2+2가 뭐야?" [])
    = Val structured_answer
  ∧ is_str structured_answer = false.
Proof. split; by vm_compute. Qed.

Lemma structured_final_answer_scenario :
  ∃ a, tool a = final_answer ∧ structured_answer = tool_input a.
Proof.
  destruct (run_mock [Val (answer structured_answer)] plain_template "2+2가 뭐야?" [])
    as [r st'] eqn:Hrun.
  assert (Hr : r = Val structured_answer).
  { change r with (fst (r, st')). rewrite <- Hrun. by vm_compute. }
  rewrite Hr in Hrun.
  destruct (returned_value_is_text_or_final_input plain_repr plain_dump
              (scripted [Val (answer structured_answer)]) plain_template
              "2+2가 뭐야?" [] [] st0 structured_answer st' Hrun)
    as [Hstr|(a & _ & Hf & Hv)].
  - discriminate Hstr.
  - exists a. split; [exact Hf|exact Hv].
Defined.


(** Two tools under one name: no error is reported, the run proceeds and
    the decision is dispatched to the later tool. *)
Lemma name_collision_goes_unreported :
  ¬ NoDup (map name colliding_tools)
  ∧ tool_map colliding_tools !! "calculator_tool" = Some (calculator_returning "second")
  ∧ ∃ st', run_mock [Val (calculate "1+1"); Val (answer (VStr "done"))]
             plain_template "1+1?" colliding_tools = (Val (VStr "done"), st')
           ∧ ToolCall "calculator_tool" (VStr "1+1") (Val (VStr "second")) ∈ calls st'.
Proof.
  split; [|split].
  - apply (bool_decide_unpack _). by vm_compute.
  - by vm_compute.
  - eexists. split; [by vm_compute|]. simpl.
    do 5 apply list_elem_of_further. apply list_elem_of_here.
Qed.

(** Two completed passes leave a record of two entries. *)
Lemma two_passes_scenario :
  ∃ es : list entry,
    length es = 2
    ∧ fst (mock_passes never_done "1+1?" [calculator_returning "2"] 2)
        = Val (Next (render_trace plain_repr plain_dump es)).
Proof.
  destruct (mock_passes never_done "1+1?" [calculator_returning "2"] 2)
    as [r st2] eqn:Hloop.
  assert (Hr : ∃ s, r = Val (Next s)).
  { change r with (fst (r, st2)). rewrite <- Hloop. eexists. by vm_compute. }
  destruct Hr as [s ->].
  destruct (steps_grow_one_entry_per_pass plain_repr plain_dump (scripted never_done)
              plain_template "1+1?" [] [calculator_returning "2"] 2 st0 s st2 Hloop)
    as (es & Hlen & Hs & _).
  exists es. split; [exact Hlen|]. simpl. by rewrite Hs.
Defined.

(** A schema-valid decision for the calculator is dispatched to it. *)
Lemma valid_decision_scenario :
  ∃ t, tool_map idle_tools !! "calculator_tool" = Some t
       ∧ name t = "calculator_tool".
Proof.
  destruct (valid_decision_reaches_a_tool idle idle idle idle idle idle
              (calculate "1+1") st0) as (t & Ht & _ & Hn & _);
    [ by vm_compute | discriminate | discriminate | ].
  exists t. split; [exact Ht|exact Hn].
Defined.

(** The calls of the example run are in the order of the protocol. *)
Lemma example_calls_are_well_dispatched :
  ∃ new, calls (snd (run_mock two_plus_two plain_template "2+2가 뭐야?"
                       [calculator_returning "4"])) = new
         ∧ well_dispatched (λ n, n ∈ map name [calculator_returning "4"]) None new.
Proof.
  destruct (run_mock two_plus_two plain_template "2+2가 뭐야?" [calculator_returning "4"])
    as [r st'] eqn:Hrun.
  destruct (tool_calls_follow_decisions plain_repr plain_dump (scripted two_plus_two)
              plain_template "2+2가 뭐야?" [] [calculator_returning "4"] st0 r st' Hrun)
    as (new & Hc & Hw).
  exists new. split; [exact Hc|exact Hw].
Defined.

(** The ask-user tool is registered, and the run does not invoke it. *)
Lemma registered_ask_user_tool_is_not_invoked :
  ask_user ∈ map name idle_tools
  ∧ ∃ new, calls (snd (run_mock [Val (ask "목표 점수는?")] plain_template
                         "계획을 세워줘" idle_tools)) = new
           ∧ ∀ n input out, ToolCall n input out ∈ new → n ≠ ask_user.
Proof.
  split; [apply (bool_decide_unpack _); by vm_compute|].
  destruct (run_mock [Val (ask "목표 점수는?")] plain_template "계획을 세워줘" idle_tools)
    as [r st'] eqn:Hrun.
  destruct (sentinels_are_never_invoked plain_repr plain_dump
              (scripted [Val (ask "목표 점수는?")]) plain_template
              "계획을 세워줘" [] idle_tools st0 r st' Hrun) as (new & Hc & Hnever).
  exists new. split; [exact Hc|]. intros n input out Hin.
  exact (proj1 (proj2 (Hnever n input out Hin))).
Defined.

Lemma example_has_no_more_tool_calls_than_decisions :
  count is_tool_call (snd (run_mock never_done plain_template "1+1?"
                             [calculator_returning "2"]))
    ≤ count is_llm_call (snd (run_mock never_done plain_template "1+1?"
                                [calculator_returning "2"])).
Proof.
  destruct (run_mock never_done plain_template "1+1?" [calculator_returning "2"])
    as [r st'] eqn:Hrun.
  pose proof (no_more_tool_calls_than_decisions plain_repr plain_dump (scripted never_done)
                plain_template "1+1?" [] [calculator_returning "2"] st0 r st' Hrun) as H.
  simpl. change (count is_tool_call st0) with 0 in H.
  change (count is_llm_call st0) with 0 in H. lia.
Defined.

(** The second decision request fails: the run ends with the engine-error
    text after two requests. *)
Lemma failed_request_scenario :
  ∃ st', run_mock fails_on_second_request plain_template "2+2가 뭐야?"
           [calculator_returning "4"]
           = (Val (VStr (engine_error "ValidationError: tool")), st')
         ∧ count is_llm_call st' = 2.
Proof.
  eassert (Hw : _ ∧ _ ∧ _ ∧ _).
  { eapply (engine_error_ends_the_run plain_repr plain_dump
              (scripted fails_on_second_request) plain_template
              "2+2가 뭐야?" [] [calculator_returning "4"] 1 st0);
      [ unfold MAX_ITERS; lia
      | pass_completes; apply recorded_done
      | reflexivity | reflexivity ]. }
  destruct Hw as (Hrun & _ & Hl & _).
  eexists. split; [exact Hrun|exact Hl].
Defined.

(** The calculator returns "4": the pass records it as the observation. *)
Lemma calculator_result_scenario :
  ∃ st', mock_completed two_plus_two "2+2가 뭐야?" [calculator_returning "4"] 1
           [(thought (calculate "2+2"), calculate "2+2", VStr "4")] st'
         ∧ count is_tool_call st' = 1.
Proof.
  eassert (Hw : _ ∧ _ ∧ _ ∧ _ ∧ _).
  { eapply (tool_result_is_recorded plain_repr plain_dump (scripted two_plus_two)
              plain_template "2+2가 뭐야?" [] [calculator_returning "4"] 0 st0);
      [ unfold MAX_ITERS; lia | apply recorded_done | reflexivity | reflexivity
      | discriminate | discriminate | vm_compute; reflexivity | reflexivity ]. }
  destruct Hw as (Hrec & _ & _ & _ & Ht).
  eexists. split; [exact Hrec|exact Ht].
Defined.

Lemma calculator_is_resolved :
  tool_map idle_tools !! "calculator_tool" = Some (calculator_tool nat idle).
Proof.
  apply (distinct_names_resolve idle_tools (calculator_tool nat idle)).
  - apply (bool_decide_unpack _). by vm_compute.
  - apply list_elem_of_further. apply list_elem_of_here.
Defined.

Lemma history_of_one_turn_scenario :
  contains "안녕" (history_str plain_repr [(VStr "안녕", VStr "무엇을 도와드릴까요?")])
  ∧ contains "무엇을 도와드릴까요?"
      (history_str plain_repr [(VStr "안녕", VStr "무엇을 도와드릴까요?")]).
Proof.
  apply (history_str_mentions_every_turn plain_repr
           [(VStr "안녕", VStr "무엇을 도와드릴까요?")]
           (VStr "안녕") (VStr "무엇을 도와드릴까요?")).
  apply list_elem_of_here.
Defined.

(** The first prompt on a new page. *)
Lemma first_turn_scenario :
  ∃ s' st', mock_turn two_plus_two plain_template [calculator_returning "4"]
              "2+2가 뭐야?" new_session = (Val tt, s', st')
            ∧ chat_history s' = [(VStr "2+2가 뭐야?", VStr "2+2는 4입니다.")]
            ∧ messages s' = messages_of (chat_history s').
Proof.
  eassert (Hturn : mock_turn two_plus_two plain_template [calculator_returning "4"]
                     "2+2가 뭐야?" new_session = (Val tt, _, _))
    by (vm_compute; reflexivity).
  destruct (chat_turn_records_the_exchange plain_repr plain_dump (scripted two_plus_two)
              plain_template [calculator_returning "4"] "2+2가 뭐야?" new_session st0
              _ _ Hturn) as (response & Hrun & Hh & _ & Hal).
  eexists _, _. split; [exact Hturn|]. split; [reflexivity|]. by apply Hal.
Defined.

(** A prompt on a page whose template cannot be rendered. *)
Lemma failed_turn_scenario :
  ∃ s' st', mock_turn two_plus_two broken_template [calculator_returning "4"]
              "2+2가 뭐야?" new_session = (Exc "KeyError: 'input'", s', st')
            ∧ chat_history s' = []
            ∧ messages s' = [("user", VStr "2+2가 뭐야?")].
Proof.
  eassert (Hturn : mock_turn two_plus_two broken_template [calculator_returning "4"]
                     "2+2가 뭐야?" new_session = (Exc "KeyError: 'input'", _, _))
    by (vm_compute; reflexivity).
  destruct (chat_turn_failure_leaves_a_dangling_message plain_repr plain_dump
              (scripted two_plus_two) broken_template [calculator_returning "4"]
              "2+2가 뭐야?" new_session st0 _ _ _ Hturn) as (Hh & Hm & _ & _).
  eexists _, _. split; [exact Hturn|]. split; [exact Hh|exact Hm].
Defined.

Lemma second_turn_history_scenario :
  ∃ s', fst (mock_turn two_plus_two plain_template [calculator_returning "4"]
               "2+2가 뭐야?" new_session) = (Val tt, s')
        ∧ contains "2+2가 뭐야?" (history_str plain_repr (chat_history s')).
Proof.
  eassert (Hturn : mock_turn two_plus_two plain_template [calculator_returning "4"]
                     "2+2가 뭐야?" new_session = (Val tt, _, _))
    by (vm_compute; reflexivity).
  destruct (next_turn_sees_the_exchange plain_repr plain_dump (scripted two_plus_two)
              plain_template [calculator_returning "4"] "2+2가 뭐야?" new_session st0
              _ _ Hturn) as (response & _ & Hp & _).
  eexists. split; [by rewrite Hturn|exact Hp].
Defined.

Lemma exam_plan_scenario :
  contains "수능 수학 3등급, 블로그도 운영" (exam_plan "수능 수학 3등급, 블로그도 운영")
  ∧ create_study_plan_tool_func uncased "수능 수학 3등급, 블로그도 운영"
      = VStr (exam_plan "수능 수학 3등급, 블로그도 운영").
Proof.
  split; [|by vm_compute].
  apply (study_plan_quotes_user_info uncased "수능 수학 3등급, 블로그도 운영"
           (exam_plan "수능 수학 3등급, 블로그도 운영")).
  by vm_compute.
Defined.

End Scenarios.
